(** * The IBM i debugger view (src/views/debugView.ts)

    A shallow embedding of the debug browser: the certificate check made by
    the [DebugJobItem] constructor, the refresh that builds the two job nodes
    ([DebugBrowser.getRootItems]), the lazy tooltip ([resolveTreeItem]) and
    the start / stop / restart commands.

    The code is asynchronous and talks to collaborators that live in other
    modules (the connection instance, api/debug/certificates,
    api/debug/server, the vscode window).  Every such call is an event of
    type [Ev X] answered with an [X]; a function of the source becomes a
    finite program [Prog A] over these events, run against an arbitrary
    stateful handler, which records what was called and what came back. *)

From Stdlib Require Import String List ZArith Bool Lia DecimalString.
Import ListNotations.
Open Scope string_scope.

(** ** JavaScript values *)

(** [!!s] for [s : string | undefined]: the empty string is falsy. *)
Definition truthy (s : option string) : bool :=
  match s with
  | Some s => negb (s =? "")
  | None => false
  end.

(** [a !== b] for [a, b : string | undefined]. *)
Definition strictNeq (a b : option string) : bool :=
  match a, b with
  | Some x, Some y => negb (x =? y)
  | None, None => false
  | _, _ => true
  end.

(** [xs.join(sep)] *)
Fixpoint join (sep : string) (xs : list string) : string :=
  match xs with
  | [] => ""
  | [x] => x
  | x :: rest => x ++ sep ++ join sep rest
  end.

(** The text of a port number: ports are whole numbers, printed digit by
    digit. *)
Definition numberToString (z : Z) : string := NilZero.string_of_int (Z.to_int z).

(** ** Data of the view *)

(** [type Certificates] *)
Record Certificates := {
  secureDebug : bool;
  remoteCertificate : option string;
  localCertificate : option string
}.

(** [type CertificateIssue] *)
Record CertificateIssue := {
  label : string;
  detail : option string;
  context : string
}.

(** [DebugJob] of api/debug/server: a job name and the ports it listens on. *)
Record DebugJob := {
  name : string;
  ports : list Z
}.

(** A number of a column.  The view does one thing with a column value
    that is not null: it prints it in a template literal.  So a number is
    kept as the text its printing gives: twelve as 12, one half as 0.5, ten
    to the power 21 as 1e+21. *)
Record JSNumber := { Number_toString : string }.

(** A value of a [Tools.DB2Row] column. *)
Inductive DB2Value :=
| DB2String (s : string)
| DB2Number (n : JSNumber)
| DB2Null.

(** [Tools.DB2Row]: the columns of a row, in the order [Object.entries]
    lists them. *)
Definition DB2Row := list (string * DB2Value).

(** The [type] of a [DebugJobItem]. *)
Inductive JobType := server | service.

Definition JobType_name (ty : JobType) : string :=
  match ty with
  | server => "server"
  | service => "service"
  end.

Inductive TreeItemCollapsibleState :=
| CollapsibleState_None
| CollapsibleState_Collapsed
| CollapsibleState_Expanded.

(** The parameters a [BrowserItem] is created with. *)
Record BrowserItemParameters := {
  state : TreeItemCollapsibleState;
  icon : string;
  color : string
}.

(** A tooltip is a plain string or a [vscode.MarkdownString]. *)
Inductive Tooltip :=
| PlainTooltip (s : string)
| MarkdownString (value : string).

Definition appendMarkdown (tt : Tooltip) (s : string) : Tooltip :=
  match tt with
  | PlainTooltip v => PlainTooltip v
  | MarkdownString v => MarkdownString (v ++ s)
  end.

(** The fields of a [BrowserItem] (a [vscode.TreeItem]) the view sets. *)
Record BrowserItem := {
  itemLabel : string;
  params : option BrowserItemParameters;
  contextValue : option string;
  description : option string;
  tooltip : option Tooltip
}.

Definition set_tooltip (i : BrowserItem) (tt : option Tooltip) : BrowserItem :=
  {| itemLabel := itemLabel i; params := params i;
     contextValue := contextValue i; description := description i;
     tooltip := tt |}.

(** [getDebugServiceDetails()] *)
Record DebugServiceDetails := { version : string }.

(** What the view takes from the modules around it: the connection type and
    its content accessor, opaque here; [connection.config?.debugIsSecure],
    undefined when there is no config; [getLocalCertPath] and
    [getRemoteCertificateDirectory] of api/debug/certificates, the latter
    called on [instance.getConnection()!], whose assertion is erased at run
    time; and [t(key, ...args)] of the locale module. *)
Class Collaborators := {
  IBMi : Type;
  IBMiContent : Type;
  debugIsSecure : IBMi -> option bool;
  getLocalCertPath : IBMi -> string;
  getRemoteCertificateDirectory : option IBMi -> string;
  t : string -> list string -> string
}.

Section DebugView.

Context {env : Collaborators}.

(** ** Calls to the collaborators *)

(** One constructor per function of another module the view calls.  The
    start and stop functions of api/debug/server are calls like the others:
    the view sees the boolean they resolve to and nothing of what they do. *)
Inductive Ev : Type -> Type :=
(* instantiate *)
| getConnection : Ev (option IBMi)
| getContent : Ev (option IBMiContent)
(* api/debug/certificates and fs *)
| remoteServerCertificateExists (connection : IBMi) : Ev bool
| readRemoteCertificate (connection : IBMi) : Ev string
| localClientCertExists (connection : IBMi) : Ev bool
| readFileSync (path : string) : Ev string
(* api/debug/server *)
| getDebugServerJob : Ev (option DebugJob)
| getDebugServiceJob : Ev (option DebugJob)
| getDebugServiceDetails : Ev DebugServiceDetails
| isDebugEngineRunning : Ev bool
| readActiveJob (content : IBMiContent) (job : DebugJob) : Ev (option (DB2Row + string))
| readJVMInfo (content : IBMiContent) (job : DebugJob) : Ev (option DB2Row)
| startServer : Ev bool
| stopServer : Ev bool
| startService (connection : IBMi) : Ev bool
| stopService (connection : IBMi) : Ev bool
(* vscode *)
| fire (item : option BrowserItem) : Ev unit
| withProgress (title : string) : Ev unit
| setTitle (s : string) : Ev unit
| setDescription (s : string) : Ev unit.

(** A program: it returns, or makes a call and goes on with the answer. *)
Inductive Prog (A : Type) : Type :=
| Ret (a : A)
| Vis {X : Type} (e : Ev X) (k : X -> Prog A).

Arguments Ret {A} a.
Arguments Vis {A X} e k.

Fixpoint bind {A B : Type} (p : Prog A) (f : A -> Prog B) : Prog B :=
  match p with
  | Ret a => f a
  | Vis e k => Vis e (fun x => bind (k x) f)
  end.

Definition trigger {X : Type} (e : Ev X) : Prog X := Vis e Ret.

Notation "x <- p ;; q" := (bind p (fun x => q))
  (at level 61, p at next level, right associativity).
Notation "p ;;; q" := (bind p (fun _ => q))
  (at level 61, right associativity).

(** A call together with its answer. *)
Inductive Obs : Type :=
| Observed {X : Type} (e : Ev X) (x : X).

(** The collaborators: each call is answered from a world, which it may
    change. *)
Definition Handler (W : Type) : Type := forall X : Type, Ev X -> W -> X * W.

Record Outcome (W A : Type) := {
  value : A;
  world : W;
  trace : list Obs
}.

Arguments value {W A} _.
Arguments world {W A} _.
Arguments trace {W A} _.

Fixpoint run {W A : Type} (h : Handler W) (p : Prog A) (w : W) : Outcome W A :=
  match p with
  | Ret a => {| value := a; world := w; trace := [] |}
  | Vis e k =>
      let r := run h (k (fst (h _ e w))) (snd (h _ e w)) in
      {| value := value r; world := world r;
         trace := Observed e (fst (h _ e w)) :: trace r |}
  end.

(** ** [DebugJobItem] *)

Record DebugJobItem := {
  item : BrowserItem;
  type : JobType;
  startFunction : Prog bool;
  stopFunction : Prog bool;
  debugJob : option DebugJob;
  problem : option CertificateIssue
}.

(** [const cantRun = certificates && !certificates.remoteCertificate] *)
Definition cantRun (certificates : option Certificates) : bool :=
  match certificates with
  | Some c => negb (truthy (remoteCertificate c))
  | None => false
  end.

(** [const running = !cantRun && debugJob !== undefined] *)
Definition running (certificates : option Certificates) (job : option DebugJob) : bool :=
  negb (cantRun certificates) && (match job with Some _ => true | None => false end).

(** The certificate check of the constructor (the [if (certificates)]
    block); the connection is looked up only for the missing remote
    certificate. *)
Definition findProblem (certificates : option Certificates) : Prog (option CertificateIssue) :=
  match certificates with
  | Some c =>
      if negb (truthy (remoteCertificate c)) then
        connection <- trigger getConnection ;;
        Ret (Some {| context := "noremote";
                     label := t "remote.certificate.not.found" [];
                     detail := Some (t "remote.certificate.not.found.detail"
                                       ["debug_service.pfx"; getRemoteCertificateDirectory connection]) |})
      else if secureDebug c then
        if negb (truthy (localCertificate c)) then
          Ret (Some {| context := "nolocal";
                       label := t "local.certificate.not.found" [];
                       detail := None |})
        else if strictNeq (remoteCertificate c) (localCertificate c) then
          Ret (Some {| context := "dontmatch";
                       label := t "local.dont.match.remote" [];
                       detail := None |})
        else Ret None
      else Ret None
  | None => Ret None
  end.

(** The rest of the constructor, once [problem] is known. *)
Definition buildItem (ty : JobType) (lbl : string) (startF stopF : Prog bool)
    (job : option DebugJob) (certificates : option Certificates)
    (pb : option CertificateIssue) : DebugJobItem :=
  let cantRun := cantRun certificates in
  let running := running certificates job in
  let hasProblem := match pb with Some _ => true | None => false end in
  {| item :=
       {| itemLabel := lbl;
          params := Some
            {| state := if hasProblem then CollapsibleState_Expanded else CollapsibleState_None;
               icon := if hasProblem then "warning" else if running then "pass" else "error";
               color := if hasProblem
                        then (if cantRun then "testing.iconFailed" else "testing.iconQueued")
                        else (if running then "testing.iconPassed" else "testing.iconFailed") |};
          contextValue := Some ("debugJob_" ++ JobType_name ty ++
                                (if cantRun then "" else "_" ++ (if running then "on" else "off")));
          description := if running then option_map name job else Some (t "offline" []);
          tooltip := if running then None else Some (PlainTooltip "") |};
     type := ty;
     startFunction := startF;
     stopFunction := stopF;
     debugJob := job;
     problem := pb |}.

(** [new DebugJobItem(type, label, startFunction, stopFunction, debugJob, certificates)] *)
Definition new_DebugJobItem (ty : JobType) (lbl : string) (startF stopF : Prog bool)
    (job : option DebugJob) (certificates : option Certificates) : Prog DebugJobItem :=
  pb <- findProblem certificates ;;
  Ret (buildItem ty lbl startF stopF job certificates pb).

(** [new CertificateIssueItem(issue)] *)
Definition new_CertificateIssueItem (issue : CertificateIssue) : BrowserItem :=
  {| itemLabel := label issue;
     params := None;
     contextValue := Some ("certificateIssue_" ++ context issue);
     description := detail issue;
     tooltip := Some (PlainTooltip (if truthy (detail issue)
                                    then match detail issue with Some d => d | None => "" end
                                    else "")) |}.

(** The items of the tree: job nodes and the issue shown under one. *)
Inductive DebugItem :=
| JobItem (element : DebugJobItem)
| IssueItem (element : BrowserItem).

Definition treeItem (element : DebugItem) : BrowserItem :=
  match element with
  | JobItem j => item j
  | IssueItem i => i
  end.

(** [DebugJobItem.getChildren]: undefined when there is no problem. *)
Definition DebugJobItem_getChildren (this : DebugJobItem) : option (list DebugItem) :=
  match problem this with
  | Some pb => Some [IssueItem (new_CertificateIssueItem pb)]
  | None => None
  end.

(** [DebugJobItem.start] and [DebugJobItem.stop]: the item's function, run
    under the window's progress indicator. *)
Definition DebugJobItem_start (this : DebugJobItem) : Prog bool :=
  trigger (withProgress (t ("start.debug." ++ JobType_name (type this) ++ ".task") [])) ;;;
  startFunction this.

Definition DebugJobItem_stop (this : DebugJobItem) : Prog bool :=
  trigger (withProgress (t ("stop.debug." ++ JobType_name (type this) ++ ".task") [])) ;;;
  stopFunction this.

(** ** [DebugBrowser] *)

(** [refresh(item?)]: fires the tree's change event. *)
Definition DebugBrowser_refresh (target : option DebugItem) : Prog unit :=
  trigger (fire (option_map treeItem target)).

(** [DebugItem.refresh]: the command code-for-ibmi.debug.refresh.item on
    [this], which is [DebugBrowser.refresh]. *)
Definition DebugItem_refresh (this : DebugItem) : Prog unit :=
  DebugBrowser_refresh (Some this).

(** The certificates a refresh collects (the first block of
    [getRootItems]). *)
Definition readCertificates (connection : IBMi) : Prog Certificates :=
  let secure := match debugIsSecure connection with Some b => b | None => false end in
  found <- trigger (remoteServerCertificateExists connection) ;;
  if found : bool then
    remote <- trigger (readRemoteCertificate connection) ;;
    if secure then
      foundLocal <- trigger (localClientCertExists connection) ;;
      if foundLocal : bool then
        loc <- trigger (readFileSync (getLocalCertPath connection)) ;;
        Ret {| secureDebug := secure; remoteCertificate := Some remote;
               localCertificate := Some loc |}
      else
        Ret {| secureDebug := secure; remoteCertificate := Some remote;
               localCertificate := None |}
    else
      Ret {| secureDebug := secure; remoteCertificate := Some remote;
             localCertificate := None |}
  else
    Ret {| secureDebug := secure; remoteCertificate := None;
           localCertificate := None |}.

(** The two nodes of a connection (the [return] of [getRootItems]). *)
Definition buildRootItems (connection : IBMi) (certificates : Certificates)
  : Prog (list DebugJobItem) :=
  serverJob <- trigger getDebugServerJob ;;
  serverItem <- new_DebugJobItem server (t "debug.server" [])
                  (trigger startServer) (trigger stopServer) serverJob None ;;
  serviceJob <- trigger getDebugServiceJob ;;
  serviceItem <- new_DebugJobItem service (t "debug.service" [])
                   (trigger (startService connection)) (trigger (stopService connection))
                   serviceJob (Some certificates) ;;
  Ret [serverItem; serviceItem].

Definition getRootItems : Prog (list DebugJobItem) :=
  connection <- trigger getConnection ;;
  match connection with
  | Some connection =>
      certificates <- readCertificates connection ;;
      buildRootItems connection certificates
  | None => Ret []
  end.

(** [getChildren(item?)]: [item?.getChildren?.() || this.getRootItems()];
    an issue item has no [getChildren]. *)
Definition getChildren (target : option DebugItem) : Prog (list DebugItem) :=
  match match target with
        | Some (JobItem j) => DebugJobItem_getChildren j
        | _ => None
        end with
  | Some children => Ret children
  | None => items <- getRootItems ;; Ret (map JobItem items)
  end.

Definition nl : string := String (Ascii.ascii_of_nat 10) EmptyString.

Definition DB2Value_isNull (v : DB2Value) : bool :=
  match v with
  | DB2Null => true
  | _ => false
  end.

Definition DB2Value_toString (v : DB2Value) : string :=
  match v with
  | DB2String s => s
  | DB2Number n => Number_toString n
  | DB2Null => "null"
  end.

(** [jobToMarkDown] of [resolveTreeItem]. *)
Definition jobToMarkDown (job : DB2Row + string) : string :=
  match job with
  | inr s => s
  | inl row =>
      join nl (map (fun kv => "- " ++ t (fst kv) [] ++ ": " ++ DB2Value_toString (snd kv))
                   (filter (fun kv => negb (DB2Value_isNull (snd kv))) row))
  end.

(** [if (activeJob)]: a row is truthy, a string unless it is empty. *)
Definition activeJobTruthy (activeJob : option (DB2Row + string)) : bool :=
  match activeJob with
  | Some (inl _) => true
  | Some (inr s) => negb (s =? "")
  | None => false
  end.

(** The tooltip [resolveTreeItem] starts from: the ports line. *)
Definition portsTooltip (job : DebugJob) : Tooltip :=
  MarkdownString
    (t ("listening.on.port" ++ (if Nat.eqb (length (ports job)) 1 then "" else "s")) []
     ++ " " ++ join ", " (map numberToString (ports job)) ++ nl ++ nl).

(** [resolveTreeItem(item, element, token)]; the result is the element with
    its tooltip set, or undefined. *)
Definition resolveTreeItem (element : DebugItem) : Prog (option DebugJobItem) :=
  content <- trigger getContent ;;
  match content, element with
  | Some content, JobItem element =>
      match tooltip (item element), debugJob element with
      | None, Some job =>
          let tt0 := portsTooltip job in
          activeJob <- trigger (readActiveJob content job) ;;
          tt <- (if activeJobTruthy activeJob then
                   let tt1 := appendMarkdown tt0
                                (match activeJob with
                                 | Some j => jobToMarkDown j
                                 | None => ""
                                 end) in
                   match type element with
                   | service =>
                       let tt2 := appendMarkdown tt1 (nl ++ nl) in
                       jvmJob <- trigger (readJVMInfo content job) ;;
                       match jvmJob with
                       | Some jvm => Ret (appendMarkdown tt2 (jobToMarkDown (inl jvm)))
                       | None => Ret tt2
                       end
                   | server => Ret tt1
                   end
                 else Ret tt0) ;;
          Ret (Some {| item := set_tooltip (item element) (Some tt);
                       type := type element;
                       startFunction := startFunction element;
                       stopFunction := stopFunction element;
                       debugJob := debugJob element;
                       problem := problem element |})
      | _, _ => Ret None
      end
  | _, _ => Ret None
  end.

(** ** [initializeDebugBrowser] *)

Definition title : string := "IBM i debugger".

(** [updateDebugBrowser]: the viewer's title and description, then a full
    refresh. *)
Definition updateDebugBrowser : Prog unit :=
  connection <- trigger getConnection ;;
  match connection with
  | Some _ =>
      details <- trigger getDebugServiceDetails ;;
      trigger (setTitle (title ++ " " ++ version details)) ;;;
      online <- trigger isDebugEngineRunning ;;
      trigger (setDescription (if online : bool then t "online" [] else t "offline" []))
  | None =>
      trigger (setTitle title) ;;;
      trigger (setDescription "")
  end ;;;
  DebugBrowser_refresh None.



Definition command_job_start (target : DebugJobItem) : Prog bool :=
  DebugJobItem_start target.

Definition command_job_stop (target : DebugJobItem) : Prog bool :=
  DebugJobItem_stop target.

(** [await item.start() && item.stop()] *)
Definition command_job_restart (target : DebugJobItem) : Prog bool :=
  started <- DebugJobItem_start target ;;
  if started : bool then DebugJobItem_stop target else Ret false.

(** ** Reading a trace *)

Definition isFire (o : Obs) : bool :=
  match o with
  | Observed e _ =>
      match e with
      | fire _ => true
      | _ => false
      end
  end.

(** A call to one of the stop functions of api/debug/server. *)
Definition isStopCall (o : Obs) : bool :=
  match o with
  | Observed e _ =>
      match e with
      | stopServer => true
      | stopService _ => true
      | _ => false
      end
  end.

Definition isLocalRead (o : Obs) : bool :=
  match o with
  | Observed e _ =>
      match e with
      | readFileSync _ => true
      | _ => false
      end
  end.

(** What a collaborator returned, whatever the call. *)
Inductive Answer :=
| AConnection (c : option IBMi)
| AContent (c : option IBMiContent)
| ABool (b : bool)
| AString (s : string)
| AJob (j : option DebugJob)
| ADetails (d : DebugServiceDetails)
| AActiveJob (a : option (DB2Row + string))
| AJVMInfo (a : option DB2Row)
| AUnit.

Definition answer (o : Obs) : Answer :=
  match o with
  | Observed e x =>
      match e in Ev X return X -> Answer with
      | getConnection => AConnection
      | getContent => AContent
      | remoteServerCertificateExists _ => ABool
      | readRemoteCertificate _ => AString
      | localClientCertExists _ => ABool
      | readFileSync _ => AString
      | getDebugServerJob => AJob
      | getDebugServiceJob => AJob
      | getDebugServiceDetails => ADetails
      | isDebugEngineRunning => ABool
      | readActiveJob _ _ => AActiveJob
      | readJVMInfo _ _ => AJVMInfo
      | startServer => ABool
      | stopServer => ABool
      | startService _ => ABool
      | stopService _ => ABool
      | fire _ => fun _ => AUnit
      | withProgress _ => fun _ => AUnit
      | setTitle _ => fun _ => AUnit
      | setDescription _ => fun _ => AUnit
      end x
  end.

(** The answer to a call, read back from what a collaborator returned. *)
Definition decode {X : Type} (e : Ev X) (a : Answer) : option X :=
  match e in Ev X return option X with
  | getConnection => match a with AConnection c => Some c | _ => None end
  | getContent => match a with AContent c => Some c | _ => None end
  | remoteServerCertificateExists _ => match a with ABool b => Some b | _ => None end
  | readRemoteCertificate _ => match a with AString s => Some s | _ => None end
  | localClientCertExists _ => match a with ABool b => Some b | _ => None end
  | readFileSync _ => match a with AString s => Some s | _ => None end
  | getDebugServerJob => match a with AJob j => Some j | _ => None end
  | getDebugServiceJob => match a with AJob j => Some j | _ => None end
  | getDebugServiceDetails => match a with ADetails d => Some d | _ => None end
  | isDebugEngineRunning => match a with ABool b => Some b | _ => None end
  | readActiveJob _ _ => match a with AActiveJob j => Some j | _ => None end
  | readJVMInfo _ _ => match a with AJVMInfo j => Some j | _ => None end
  | startServer => match a with ABool b => Some b | _ => None end
  | stopServer => match a with ABool b => Some b | _ => None end
  | startService _ => match a with ABool b => Some b | _ => None end
  | stopService _ => match a with ABool b => Some b | _ => None end
  | fire _ => match a with AUnit => Some tt | _ => None end
  | withProgress _ => match a with AUnit => Some tt | _ => None end
  | setTitle _ => match a with AUnit => Some tt | _ => None end
  | setDescription _ => match a with AUnit => Some tt | _ => None end
  end.

(** A program run again on recorded answers, without any collaborator. *)
Fixpoint replay {A : Type} (p : Prog A) (answers : list Answer) : option A :=
  match p with
  | Ret a => Some a
  | Vis e k =>
      match answers with
      | a :: rest =>
          match decode e a with
          | Some x => replay (k x) rest
          | None => None
          end
      | [] => None
      end
  end.

(** The issue a node carries, by its [context]; none when all is well. *)
Definition issueContext (pb : option CertificateIssue) : option string :=
  option_map context pb.

(** A node is shown as blocked when it carries the warning icon; this is
    the node that expands to a [CertificateIssueItem]. *)
Definition blocked (node : DebugJobItem) : bool :=
  match params (item node) with
  | Some p => icon p =? "warning"
  | None => false
  end.

(** A node is shown as running when its context value ends in [_on]. *)
Definition shownRunning (node : DebugJobItem) : bool :=
  match contextValue (item node) with
  | Some s => s =? "debugJob_" ++ JobType_name (type node) ++ "_on"
  | None => false
  end.

(** An enrichment query ([readActiveJob]) that came back with nothing. *)
Definition emptyEnrichment (o : Obs) : bool :=
  match o with
  | Observed e x =>
      match e in Ev X return X -> bool with
      | readActiveJob _ _ =>
          fun a => match a with Some _ => false | None => true end
      | _ => fun _ => false
      end x
  end.

(** ** A remote system with fixed answers *)

Record Remote := {
  connected : option IBMi;
  contentOf : option IBMiContent;
  remoteExists : bool;
  remoteText : string;
  localExists : bool;
  localText : string;
  serverJob : option DebugJob;
  serviceJob : option DebugJob;
  details : DebugServiceDetails;
  activeJobRow : option (DB2Row + string);
  jvmRow : option DB2Row;
  startResult : bool;
  stopResult : bool
}.

Definition fixedAnswers : Handler Remote :=
  fun X e w =>
    (match e in Ev X return X with
     | getConnection => connected w
     | getContent => contentOf w
     | remoteServerCertificateExists _ => remoteExists w
     | readRemoteCertificate _ => remoteText w
     | localClientCertExists _ => localExists w
     | readFileSync _ => localText w
     | getDebugServerJob => serverJob w
     | getDebugServiceJob => serviceJob w
     | getDebugServiceDetails => details w
     | isDebugEngineRunning => match serverJob w with Some _ => true | None => false end
     | readActiveJob _ _ => activeJobRow w
     | readJVMInfo _ _ => jvmRow w
     | startServer => startResult w
     | stopServer => stopResult w
     | startService _ => startResult w
     | stopService _ => stopResult w
     | fire _ => tt
     | withProgress _ => tt
     | setTitle _ => tt
     | setDescription _ => tt
     end, w).


(** A call to [readJVMInfo]. *)
Definition isJVMQuery (o : Obs) : bool :=
  match o with
  | Observed e _ =>
      match e with
      | readJVMInfo _ _ => true
      | _ => false
      end
  end.

(** A call that looks for the local certificate: the existence check or
    the read of the file. *)
Definition isLocalCall (o : Obs) : bool :=
  match o with
  | Observed e _ =>
      match e with
      | localClientCertExists _ => true
      | readFileSync _ => true
      | _ => false
      end
  end.

(** A call that reads the remote certificate. *)
Definition isRemoteRead (o : Obs) : bool :=
  match o with
  | Observed e _ =>
      match e with
      | readRemoteCertificate _ => true
      | _ => false
      end
  end.

(** The value of a [MarkdownString]; a plain tooltip is its own text. *)
Definition tooltipText (tt : Tooltip) : string :=
  match tt with
  | PlainTooltip s => s
  | MarkdownString v => v
  end.

Definition isMarkdown (tt : Tooltip) : bool :=
  match tt with
  | PlainTooltip _ => false
  | MarkdownString _ => true
  end.

(** The columns of a row that [jobToMarkDown] keeps. *)
Definition nonNull (row : DB2Row) : DB2Row :=
  filter (fun kv => negb (DB2Value_isNull (snd kv))) row.

End DebugView.

(** * The component registry (the second source file) *)

Module Components.

(** [enum ComponentState] *)
Inductive ComponentState :=
| NotChecked
| NotInstalled
| Installed
| Error.

(** The string each member of the enum stands for. *)
Definition ComponentState_value (st : ComponentState) : string :=
  match st with
  | NotChecked => "NotChecked"
  | NotInstalled => "NotInstalled"
  | Installed => "Installed"
  | Error => "Error"
  end.

(** [===] on two members of the enum. *)
Definition ComponentState_eqb (a b : ComponentState) : bool :=
  ComponentState_value a =? ComponentState_value b.

Section Manager.

Context {env : Collaborators}.

(** The fields of [ComponentT], with the defaults of the class. *)
Record ComponentT := {
  state : ComponentState;
  currentVersion : Z;
  connection : IBMi
}.

(** [new GetNewLibl(connection)]: the fields [ComponentT] gives it. *)
Definition new_ComponentT (conn : IBMi) : ComponentT :=
  {| state := NotChecked; currentVersion := 0%Z; connection := conn |}.

(** The abstract methods the registry calls; [checkState] gives the
    component as the call leaves it. *)
Variable getState : ComponentT -> ComponentState.
Variable checkState : ComponentT -> ComponentT.

(** [ComponentManager]: its one private field. *)
Record ComponentManager := {
  GetNewLibl : option ComponentT
}.

Definition new_ComponentManager : ComponentManager := {| GetNewLibl := None |}.

(** [startup(connection)] *)
Definition startup (this : ComponentManager) (conn : IBMi) : ComponentManager :=
  {| GetNewLibl := Some (checkState (new_ComponentT conn)) |}.

(** The result of a call that may throw. *)
Inductive Result (A : Type) :=
| Returns (a : A)
| Throws.

Arguments Returns {A} a.
Arguments Throws {A}.

(** [get(id)], for the one id there is: calling [getState] on an undefined
    field throws a TypeError. *)
Definition get (this : ComponentManager) : Result (option ComponentT) :=
  match GetNewLibl this with
  | None => Throws
  | Some component =>
      if ComponentState_eqb (getState component) Installed
      then Returns (Some component)
      else Returns None
  end.

End Manager.

Arguments Returns {A} a.
Arguments Throws {A}.

End Components.

Arguments Ret {env A} a.
Arguments Vis {env A X} e k.
Arguments value {env W A} _.
Arguments world {env W A} _.
Arguments trace {env W A} _.

Notation "x <- p ;; q" := (bind p (fun x => q))
  (at level 61, p at next level, right associativity).
Notation "p ;;; q" := (bind p (fun _ => q))
  (at level 61, right associativity).

(** ** A sample installation

    Connections are named by their host, the locale echoes its key, and a
    debug service listens on one port. *)

Definition sample : Collaborators := {|
  IBMi := string;
  IBMiContent := string;
  debugIsSecure := fun _ => Some true;
  getLocalCertPath := fun host => host ++ ".crt";
  getRemoteCertificateDirectory := fun _ => "/QIBM/ProdData/IBMiDebugService/bin/certs";
  t := fun key _ => key
|}.

Definition sampleJob : DebugJob := {| name := "QDBGSRV"; ports := [8005%Z] |}.

Definition sampleHost : @IBMi sample := "pub400".

Definition sampleContent : @IBMiContent sample := "pub400".

Definition sampleRemote : @Remote sample := {|
  connected := Some sampleHost;
  contentOf := Some sampleContent;
  remoteExists := true;
  remoteText := "";
  localExists := true;
  localText := "CERT";
  serverJob := Some sampleJob;
  serviceJob := Some sampleJob;
  details := {| version := "2.0.1" |};
  activeJobRow := None;
  jvmRow := None;
  startResult := false;
  stopResult := true
|}.

(** The same system once its job rows and the result of a start differ:
    nothing a refresh reads. *)
Definition sampleRemoteLater : @Remote sample := {|
  connected := Some sampleHost;
  contentOf := Some sampleContent;
  remoteExists := true;
  remoteText := "";
  localExists := true;
  localText := "CERT";
  serverJob := Some sampleJob;
  serviceJob := Some sampleJob;
  details := {| version := "2.0.1" |};
  activeJobRow := Some (inr "QDBGSRV is active");
  jvmRow := Some [("JAVA_VERSION", DB2String "11")];
  startResult := true;
  stopResult := true
|}.

(** The server node of a refresh, as [getRootItems] builds it. *)
Definition sampleServerNode : @DebugJobItem sample :=
  buildItem server "debug.server" (trigger startServer) (trigger stopServer)
            (Some sampleJob) None None.

(** The service node of a refresh that found nothing wrong. *)
Definition sampleServiceNode : @DebugJobItem sample :=
  buildItem service "debug.service" (trigger (startService sampleHost))
            (trigger (stopService sampleHost)) (Some sampleJob) None None.

(** The same system with no connection. *)
Definition sampleOffline : @Remote sample := {|
  connected := None;
  contentOf := None;
  remoteExists := true;
  remoteText := "CERT";
  localExists := true;
  localText := "CERT";
  serverJob := Some sampleJob;
  serviceJob := Some sampleJob;
  details := {| version := "2.0.1" |};
  activeJobRow := None;
  jvmRow := None;
  startResult := false;
  stopResult := false
|}.

(** ** Running programs *)

Section Properties.

Context {env : Collaborators}.

Lemma run_bind {W A B : Type} (h : Handler W) (p : Prog A) (f : A -> Prog B) (w : W) :
  run h (bind p f) w =
  {| value := value (run h (f (value (run h p w))) (world (run h p w)));
     world := world (run h (f (value (run h p w))) (world (run h p w)));
     trace := (trace (run h p w) ++
               trace (run h (f (value (run h p w))) (world (run h p w))))%list |}.
Proof.
  revert w. induction p as [a | X e k IH]; intro w.
  - simpl. now destruct (run h (f a) w).
  - simpl. rewrite IH. reflexivity.
Qed.

Lemma value_bind {W A B : Type} (h : Handler W) (p : Prog A) (f : A -> Prog B) (w : W) :
  value (run h (bind p f) w) = value (run h (f (value (run h p w))) (world (run h p w))).
Proof. now rewrite run_bind. Qed.

Lemma world_bind {W A B : Type} (h : Handler W) (p : Prog A) (f : A -> Prog B) (w : W) :
  world (run h (bind p f) w) = world (run h (f (value (run h p w))) (world (run h p w))).
Proof. now rewrite run_bind. Qed.

Lemma trace_bind {W A B : Type} (h : Handler W) (p : Prog A) (f : A -> Prog B) (w : W) :
  trace (run h (bind p f) w) =
  (trace (run h p w) ++ trace (run h (f (value (run h p w))) (world (run h p w))))%list.
Proof. now rewrite run_bind. Qed.

Lemma value_trigger {W X : Type} (h : Handler W) (e : Ev X) (w : W) :
  value (run h (trigger e) w) = fst (h _ e w).
Proof. reflexivity. Qed.

Lemma world_trigger {W X : Type} (h : Handler W) (e : Ev X) (w : W) :
  world (run h (trigger e) w) = snd (h _ e w).
Proof. reflexivity. Qed.

Lemma trace_trigger {W X : Type} (h : Handler W) (e : Ev X) (w : W) :
  trace (run h (trigger e) w) = [Observed e (fst (h _ e w))].
Proof. reflexivity. Qed.

Lemma run_eta {W A : Type} (r : @Outcome env W A) :
  r = {| value := value r; world := world r; trace := trace r |}.
Proof. now destruct r. Qed.

(** ** The certificate check *)

(** The context of the problem found depends on the certificates alone. *)
Lemma findProblem_context {W : Type} (h : Handler W) (w : W) (certificates : option Certificates) :
  issueContext (value (run h (findProblem certificates) w)) =
  match certificates with
  | Some c =>
      if negb (truthy (remoteCertificate c)) then Some "noremote"
      else if secureDebug c then
        if negb (truthy (localCertificate c)) then Some "nolocal"
        else if strictNeq (remoteCertificate c) (localCertificate c) then Some "dontmatch"
        else None
      else None
  | None => None
  end.
Proof.
  destruct certificates as [c|]; [|reflexivity].
  unfold findProblem.
  destruct (negb (truthy (remoteCertificate c))); [reflexivity|].
  destruct (secureDebug c); [|reflexivity].
  destruct (negb (truthy (localCertificate c))); [reflexivity|].
  destruct (strictNeq (remoteCertificate c) (localCertificate c)); reflexivity.
Qed.

Lemma findProblem_noremote_iff {W : Type} (h : Handler W) (w : W) (c : Certificates) :
  issueContext (value (run h (findProblem (Some c)) w)) = Some "noremote" <->
  truthy (remoteCertificate c) = false.
Proof.
  rewrite findProblem_context.
  destruct (truthy (remoteCertificate c)); simpl.
  - destruct (secureDebug c); [|split; discriminate].
    destruct (negb (truthy (localCertificate c))); [split; discriminate|].
    destruct (strictNeq _ _); split; discriminate.
  - split; reflexivity.
Qed.

Lemma new_DebugJobItem_value {W : Type} (h : Handler W) (w : W) ty lbl startF stopF job certificates :
  value (run h (new_DebugJobItem ty lbl startF stopF job certificates) w) =
  buildItem ty lbl startF stopF job certificates
            (value (run h (findProblem certificates) w)).
Proof. unfold new_DebugJobItem. now rewrite value_bind. Qed.

Lemma new_DebugJobItem_world {W : Type} (h : Handler W) (w : W) ty lbl startF stopF job certificates :
  world (run h (new_DebugJobItem ty lbl startF stopF job certificates) w) =
  world (run h (findProblem certificates) w).
Proof. unfold new_DebugJobItem. now rewrite world_bind. Qed.

Lemma new_DebugJobItem_trace {W : Type} (h : Handler W) (w : W) ty lbl startF stopF job certificates :
  trace (run h (new_DebugJobItem ty lbl startF stopF job certificates) w) =
  trace (run h (findProblem certificates) w).
Proof. unfold new_DebugJobItem. rewrite trace_bind. simpl. apply app_nil_r. Qed.

(** The warning icon is there exactly when a problem was found. *)
Lemma blocked_buildItem ty lbl startF stopF job certificates pb :
  blocked (buildItem ty lbl startF stopF job certificates pb) =
  match pb with Some _ => true | None => false end.
Proof.
  unfold blocked, buildItem. simpl.
  destruct pb; [reflexivity|].
  now destruct (running certificates job).
Qed.

(** The [_on] suffix is there exactly when the constructor's [running] holds. *)
Lemma shownRunning_buildItem ty lbl startF stopF job certificates pb :
  shownRunning (buildItem ty lbl startF stopF job certificates pb) =
  running certificates job.
Proof.
  unfold shownRunning, buildItem, running. simpl.
  destruct (cantRun certificates); simpl.
  - now destruct ty.
  - destruct job; now destruct ty.
Qed.

(** ** Trust classification *)

(** Claim C1: dominance of the missing remote certificate.  Whenever the
    certificates handed to the constructor have no remote certificate, the
    problem of the node is the one with context [noremote], whatever the
    secure-debug flag and the local certificate are, and the node is marked
    as unable to run: [cantRun] holds, the node is not running even with a
    job, its context value carries neither [_on] nor [_off], and it shows
    the warning icon in the failed colour. *)
Theorem noRemote_dominates {W : Type} (h : Handler W) (w : W)
    ty lbl startF stopF job (c : Certificates) :
  remoteCertificate c = None ->
  let node := value (run h (new_DebugJobItem ty lbl startF stopF job (Some c)) w) in
  issueContext (problem node) = Some "noremote" /\
  cantRun (Some c) = true /\
  running (Some c) job = false /\
  contextValue (item node) = Some ("debugJob_" ++ JobType_name ty) /\
  params (item node) = Some {| state := CollapsibleState_Expanded;
                               icon := "warning";
                               color := "testing.iconFailed" |}.
Proof.
  intros Hr node. subst node.
  rewrite new_DebugJobItem_value.
  assert (Hctx : issueContext (value (run h (findProblem (Some c)) w)) = Some "noremote").
  { rewrite findProblem_context, Hr. reflexivity. }
  destruct (value (run h (findProblem (Some c)) w)) as [pb|] eqn:Hpb;
    [|discriminate Hctx].
  unfold buildItem, running, cantRun. rewrite Hr. simpl.
  repeat split; try assumption.
  now destruct ty.
Qed.

(** Claim C2: running and blocked.  For a node built from certificates: it is
    running exactly when a job is present and the problem found is not
    [noremote] (and this is what its context value shows); it is blocked
    exactly when a problem was found; and a job together with a missing
    remote certificate gives a node that is not running and blocked. *)
Theorem running_iff_job_and_remote {W : Type} (h : Handler W) (w : W)
    ty lbl startF stopF job (c : Certificates) :
  let node := value (run h (new_DebugJobItem ty lbl startF stopF job (Some c)) w) in
  (running (Some c) job = true <->
     job <> None /\ issueContext (problem node) <> Some "noremote") /\
  shownRunning node = running (Some c) job /\
  (blocked node = true <-> issueContext (problem node) <> None) /\
  (job <> None -> remoteCertificate c = None ->
     running (Some c) job = false /\ blocked node = true).
Proof.
  intro node. subst node.
  rewrite new_DebugJobItem_value, shownRunning_buildItem, blocked_buildItem.
  cbn [buildItem problem].
  rewrite (findProblem_noremote_iff h w c).
  split; [|split; [reflexivity|split]].
  - unfold running, cantRun. rewrite negb_involutive.
    destruct (truthy (remoteCertificate c)); destruct job; simpl; split;
      try discriminate; try (intros [Hj Hn]; congruence); intro; split; congruence.
  - destruct (value (run h (findProblem (Some c)) w)); simpl; split;
      congruence.
  - intros Hj Hr. split.
    + unfold running, cantRun. rewrite Hr. reflexivity.
    + assert (Hn : truthy (remoteCertificate c) = false) by now rewrite Hr.
      apply (findProblem_noremote_iff h w c) in Hn.
      now destruct (value (run h (findProblem (Some c)) w)).
Qed.

(** Claim C3, amended: precedence with a remote certificate that is present and
    not empty.  The outcome is no problem when secure debug is off; else
    [nolocal] when the local certificate is missing or empty; else
    [dontmatch] when the two texts differ; else no problem.  It is the same
    under every handler and world: the classification reads the certificates
    alone. *)
Theorem trust_precedence {W : Type} (h : Handler W) (w : W)
    ty lbl startF stopF job (c : Certificates) (r : string) :
  remoteCertificate c = Some r ->
  r <> "" ->
  let outcome := issueContext (problem (value
                   (run h (new_DebugJobItem ty lbl startF stopF job (Some c)) w))) in
  outcome =
    (if negb (secureDebug c) then None
     else match localCertificate c with
          | None => Some "nolocal"
          | Some l => if l =? "" then Some "nolocal"
                      else if r =? l then None
                      else Some "dontmatch"
          end) /\
  (forall (W' : Type) (h' : Handler W') (w' : W') ty' lbl' startF' stopF' job',
     issueContext (problem (value
       (run h' (new_DebugJobItem ty' lbl' startF' stopF' job' (Some c)) w'))) = outcome).
Proof.
  intros Hr Hne outcome. subst outcome.
  assert (Ht : truthy (remoteCertificate c) = true).
  { rewrite Hr. simpl. apply negb_true_iff, eqb_neq, Hne. }
  split.
  - rewrite new_DebugJobItem_value. cbn [buildItem problem].
    rewrite findProblem_context, Ht, Hr. simpl.
    destruct (secureDebug c); [|reflexivity]. simpl.
    destruct (localCertificate c) as [l|]; [|reflexivity]. simpl.
    destruct (l =? ""); [reflexivity|]. simpl.
    now destruct (r =? l).
  - intros. rewrite !new_DebugJobItem_value. cbn [buildItem problem].
    now rewrite !findProblem_context.
Qed.

(** ** A refresh *)

(** The nodes of a refresh on a connection: both are built by [buildItem],
    the server node without certificates. *)
Lemma getRootItems_connected {W : Type} (h : Handler W) (w : W) (c : IBMi) :
  fst (h _ getConnection w) = Some c ->
  let rc := run h (readCertificates c) (snd (h _ getConnection w)) in
  let w3 := snd (h _ getDebugServerJob (world rc)) in
  let w4 := snd (h _ getDebugServiceJob w3) in
  value (run h getRootItems w) =
    [ buildItem server (t "debug.server" []) (trigger startServer) (trigger stopServer)
                (fst (h _ getDebugServerJob (world rc))) None None;
      buildItem service (t "debug.service" [])
                (trigger (startService c)) (trigger (stopService c))
                (fst (h _ getDebugServiceJob w3)) (Some (value rc))
                (value (run h (findProblem (Some (value rc))) w4)) ].
Proof.
  intros Hc rc w3 w4. unfold getRootItems.
  rewrite value_bind, value_trigger, world_trigger, Hc.
  rewrite value_bind. fold rc. unfold buildRootItems.
  rewrite value_bind, value_trigger, world_trigger.
  rewrite value_bind, new_DebugJobItem_value, new_DebugJobItem_world.
  change (findProblem None) with (@Ret env (option CertificateIssue) None).
  cbn [run value world].
  rewrite value_bind, value_trigger, world_trigger. fold w3.
  rewrite value_bind, new_DebugJobItem_value. fold w4.
  reflexivity.
Qed.

Lemma getRootItems_disconnected {W : Type} (h : Handler W) (w : W) :
  fst (h _ getConnection w) = None ->
  value (run h getRootItems w) = [].
Proof.
  intro Hc. unfold getRootItems.
  now rewrite value_bind, value_trigger, world_trigger, Hc.
Qed.

(** The start and stop functions of the nodes of a refresh are the calls
    of api/debug/server. *)
Lemma getRootItems_functions {W : Type} (h : Handler W) (w : W) (node : DebugJobItem) :
  In node (value (run h getRootItems w)) ->
  (startFunction node = trigger startServer /\ stopFunction node = trigger stopServer) \/
  (exists c, startFunction node = trigger (startService c) /\
             stopFunction node = trigger (stopService c)).
Proof.
  destruct (fst (h _ getConnection w)) as [c|] eqn:Hc.
  - rewrite (getRootItems_connected h w c Hc).
    intros [Hn | [Hn | []]]; subst node; cbn [buildItem startFunction stopFunction].
    + left. split; reflexivity.
    + right. exists c. split; reflexivity.
  - rewrite (getRootItems_disconnected h w Hc). intros [].
Qed.

(** ** Start, stop and restart *)

Lemma restart_run {W : Type} (h : Handler W) (w : W) (target : DebugJobItem) :
  run h (command_job_restart target) w =
  let started := run h (DebugJobItem_start target) w in
  if value started then
    let stopped := run h (DebugJobItem_stop target) (world started) in
    {| value := value stopped; world := world stopped;
       trace := (trace started ++ trace stopped)%list |}
  else started.
Proof.
  unfold command_job_restart. rewrite run_bind. cbv zeta.
  destruct (value (run h (DebugJobItem_start target) w)) eqn:Hv.
  - reflexivity.
  - cbn [run value world trace]. rewrite app_nil_r.
    rewrite <- Hv. symmetry. apply run_eta.
Qed.

(** What [start] and [stop] call: the progress indicator, then the
    function of the node. *)
Lemma start_trace {W : Type} (h : Handler W) (w : W) (target : DebugJobItem) :
  trace (run h (DebugJobItem_start target) w) =
  Observed (withProgress (t ("start.debug." ++ JobType_name (type target) ++ ".task") []))
           (fst (h _ (withProgress (t ("start.debug." ++ JobType_name (type target) ++ ".task") [])) w))
  :: trace (run h (startFunction target)
             (snd (h _ (withProgress (t ("start.debug." ++ JobType_name (type target) ++ ".task") [])) w))).
Proof. reflexivity. Qed.


(** Claim C4: restart is start, then stop only after a successful start.  The
    restart command runs [start]; when that returns true it goes on with
    [stop] from the world [start] left, and when it returns false the whole
    run is the run of [start] alone, with result false: nothing is called
    after it.  For a node of a refresh a failed start therefore leaves no
    call of a stop function in the trace of the restart. *)
Theorem restart_stops_only_after_start {W : Type} (h : Handler W) (w : W)
    (target : DebugJobItem) :
  let started := run h (DebugJobItem_start target) w in
  (value started = true ->
     value (run h (command_job_restart target) w) =
       value (run h (DebugJobItem_stop target) (world started)) /\
     trace (run h (command_job_restart target) w) =
       (trace started ++ trace (run h (DebugJobItem_stop target) (world started)))%list) /\
  (value started = false ->
     run h (command_job_restart target) w = started /\
     value (run h (command_job_restart target) w) = false /\
     forall (W0 : Type) (h0 : Handler W0) (w0 : W0),
       In target (value (run h0 getRootItems w0)) ->
       existsb isStopCall (trace (run h (command_job_restart target) w)) = false).
Proof.
  intro started. subst started. rewrite restart_run. cbv zeta.
  split; intro Hv; rewrite Hv.
  - split; reflexivity.
  - split; [reflexivity|]. split; [assumption|].
    intros W0 h0 w0 Hin. rewrite start_trace.
    destruct (getRootItems_functions h0 w0 target Hin) as [[Hs _] | [c [Hs _]]];
      rewrite Hs; reflexivity.
Qed.




(** ** The lazy tooltip *)

(** Claim C6: an enrichment that yields nothing.  When a detail request makes
    the enrichment query and the query comes back with nothing, the request
    still returns the node: its tooltip is the ports line alone, the JVM
    query is not made, and nothing fails. *)
Theorem empty_enrichment_keeps_node {W : Type} (h : Handler W) (w : W)
    (element : DebugJobItem) :
  existsb emptyEnrichment (trace (run h (resolveTreeItem (JobItem element)) w)) = true ->
  exists job,
    debugJob element = Some job /\
    value (run h (resolveTreeItem (JobItem element)) w) =
      Some {| item := set_tooltip (item element) (Some (portsTooltip job));
              type := type element;
              startFunction := startFunction element;
              stopFunction := stopFunction element;
              debugJob := debugJob element;
              problem := problem element |} /\
    length (trace (run h (resolveTreeItem (JobItem element)) w)) = 2.
Proof.
  unfold resolveTreeItem.
  rewrite run_bind, value_trigger, world_trigger, trace_trigger.
  cbn [value trace app existsb emptyEnrichment orb length].
  destruct (fst (h _ getContent w)) as [content|]; [|discriminate].
  destruct (tooltip (item element)); [discriminate|].
  destruct (debugJob element) as [job|]; [|discriminate].
  rewrite run_bind, value_trigger, world_trigger, trace_trigger.
  rewrite run_bind.
  cbn [value trace app existsb emptyEnrichment orb length].
  destruct (fst (h _ (readActiveJob content job) _)) as [a|].
  - destruct (activeJobTruthy (Some a)).
    + destruct (type element).
      * discriminate.
      * rewrite trace_bind, trace_trigger, value_trigger.
        destruct (fst (h _ (readJVMInfo content job) _)); discriminate.
    + discriminate.
  - intros _. exists job. repeat split.
Qed.

(** ** Refreshing twice *)

Lemma decode_answer {X : Type} (e : Ev X) (x : X) :
  decode e (answer (Observed e x)) = Some x.
Proof. destruct e; try reflexivity; now destruct x. Qed.

(** The result of a run is read off the answers it received. *)
Lemma replay_run {W A : Type} (h : Handler W) (p : Prog A) (w : W) :
  replay p (map answer (trace (run h p w))) = Some (value (run h p w)).
Proof.
  revert w. induction p as [a | X e k IH]; intro w.
  - reflexivity.
  - cbn [run trace value map replay]. rewrite decode_answer. apply IH.
Qed.

(** Claim C7: a refresh is a function of what it reads.  Two refreshes, against
    any collaborators and from any worlds, whose calls were answered alike,
    build equal nodes. *)
Theorem refresh_deterministic {W1 W2 : Type} (h1 : Handler W1) (h2 : Handler W2)
    (w1 : W1) (w2 : W2) :
  map answer (trace (run h1 getRootItems w1)) =
  map answer (trace (run h2 getRootItems w2)) ->
  value (run h1 getRootItems w1) = value (run h2 getRootItems w2).
Proof.
  intro Hsame.
  pose proof (replay_run h1 getRootItems w1) as H1.
  pose proof (replay_run h2 getRootItems w2) as H2.
  rewrite Hsame in H1. rewrite H1 in H2. now injection H2.
Qed.

(** ** The certificates of a refresh *)

(** What [readCertificates] returns, by the answers it gets. *)
Lemma readCertificates_value {W : Type} (h : Handler W) (w : W) (c : IBMi) :
  let found := fst (h _ (remoteServerCertificateExists c) w) in
  let w1 := snd (h _ (remoteServerCertificateExists c) w) in
  let secure := match debugIsSecure c with Some b => b | None => false end in
  let rc := run h (readCertificates c) w in
  secureDebug (value rc) = secure /\
  remoteCertificate (value rc) =
    (if found then Some (fst (h _ (readRemoteCertificate c) w1)) else None) /\
  (localCertificate (value rc) <> None -> found = true /\ secure = true) /\
  (existsb isLocalRead (trace rc) = true <-> localCertificate (value rc) <> None).
Proof.
  cbv zeta. unfold readCertificates.
  rewrite run_bind, value_trigger, world_trigger, trace_trigger.
  cbn [value trace app existsb isLocalRead orb].
  destruct (fst (h _ (remoteServerCertificateExists c) w)).
  2:{ cbn. repeat split; try congruence; try discriminate. }
  rewrite run_bind, value_trigger, world_trigger, trace_trigger.
  cbn [value trace app existsb isLocalRead orb].
  destruct (match debugIsSecure c with Some b => b | None => false end).
  2:{ cbn. repeat split; try congruence; try discriminate. }
  rewrite run_bind, value_trigger, world_trigger, trace_trigger.
  cbn [value trace app existsb isLocalRead orb].
  destruct (fst (h _ (localClientCertExists c) _)).
  - cbn. repeat split; try congruence; try discriminate.
  - cbn. repeat split; try congruence; try discriminate.
Qed.

(** Claim C8: the server node stands apart from the certificates.  On every
    refresh of a connection, whatever the certificate calls answer, the
    first node is the server node built without certificates: it has no
    problem and no issue child, it is not blocked, its job is what
    [getDebugServerJob] returned, and it is shown running exactly when that
    job is there.  The second node is the service node. *)
Theorem server_node_needs_no_certificate {W : Type} (h : Handler W) (w : W) (c : IBMi) :
  fst (h _ getConnection w) = Some c ->
  exists serverNode serviceNode,
    value (run h getRootItems w) = [serverNode; serviceNode] /\
    type serverNode = server /\
    type serviceNode = service /\
    debugJob serverNode =
      fst (h _ getDebugServerJob
             (world (run h (readCertificates c) (snd (h _ getConnection w))))) /\
    serverNode = buildItem server (t "debug.server" []) (trigger startServer)
                           (trigger stopServer) (debugJob serverNode) None None /\
    problem serverNode = None /\
    DebugJobItem_getChildren serverNode = None /\
    blocked serverNode = false /\
    running None (debugJob serverNode) =
      match debugJob serverNode with Some _ => true | None => false end /\
    shownRunning serverNode =
      match debugJob serverNode with Some _ => true | None => false end.
Proof.
  intro Hc. pose proof (getRootItems_connected h w c Hc) as Hitems.
  cbv zeta in Hitems. rewrite Hitems.
  eexists. eexists. split; [reflexivity|].
  rewrite blocked_buildItem, shownRunning_buildItem.
  cbn [buildItem type debugJob problem].
  repeat split.
Qed.

(** Claim C9: an empty remote certificate counts as a missing one.  The
    constructor runs alike on a remote certificate that is the empty string
    and on none at all, whatever the flag and the local certificate; and when on a refresh the remote certificate file
    exists but reads as the empty string, the service node carries the
    [noremote] problem and is marked as unable to run. *)
Theorem empty_remote_certificate_is_absent {W : Type} (h : Handler W) (w : W) (c : IBMi) :
  (forall ty lbl startF stopF job secure loc secure' loc',
     run h (new_DebugJobItem ty lbl startF stopF job
              (Some {| secureDebug := secure; remoteCertificate := Some "";
                       localCertificate := loc |})) w =
     run h (new_DebugJobItem ty lbl startF stopF job
              (Some {| secureDebug := secure'; remoteCertificate := None;
                       localCertificate := loc' |})) w) /\
  (fst (h _ getConnection w) = Some c ->
   fst (h _ (remoteServerCertificateExists c) (snd (h _ getConnection w))) = true ->
   fst (h _ (readRemoteCertificate c)
          (snd (h _ (remoteServerCertificateExists c) (snd (h _ getConnection w))))) = "" ->
   exists serverNode serviceNode,
     value (run h getRootItems w) = [serverNode; serviceNode] /\
     type serviceNode = service /\
     issueContext (problem serviceNode) = Some "noremote" /\
     blocked serviceNode = true /\
     shownRunning serviceNode = false /\
     contextValue (item serviceNode) = Some "debugJob_service").
Proof.
  split.
  - intros. reflexivity.
  - intros Hc Hfound Hread.
    pose proof (getRootItems_connected h w c Hc) as Hitems.
    cbv zeta in Hitems. rewrite Hitems.
    destruct (readCertificates_value h (snd (h _ getConnection w)) c)
      as [_ [Hremote _]].
    rewrite Hfound, Hread in Hremote.
    set (rc := run h (readCertificates c) (snd (h _ getConnection w))) in *.
    assert (Ht : truthy (remoteCertificate (value rc)) = false) by now rewrite Hremote.
    eexists. eexists. split; [reflexivity|].
    rewrite blocked_buildItem, shownRunning_buildItem.
    pose proof (proj2 (findProblem_noremote_iff h
      (snd (h _ getDebugServiceJob (snd (h _ getDebugServerJob (world rc)))))
      (value rc)) Ht) as Hctx.
    cbn [buildItem type problem item contextValue].
    unfold running, cantRun. rewrite Ht.
    destruct (value (run h (findProblem (Some (value rc))) _)); [|discriminate Hctx].
    repeat split. exact Hctx.
Qed.

(** Claim C10: the local certificate is read last.  The certificates a refresh
    collects have a local certificate only together with a remote one and
    with secure debug on; the local file is read exactly when the local
    certificate ends up set; and the problems [nolocal] and [dontmatch]
    are found only with secure debug on and a remote certificate present. *)
Theorem local_certificate_needs_remote_and_secure {W : Type} (h : Handler W) (w : W)
    (c : IBMi) :
  let rc := run h (readCertificates c) w in
  (localCertificate (value rc) <> None ->
     remoteCertificate (value rc) <> None /\ secureDebug (value rc) = true) /\
  (existsb isLocalRead (trace rc) = true <-> localCertificate (value rc) <> None) /\
  (forall (W' : Type) (h' : Handler W') (w' : W') (certificates : Certificates),
     let outcome := issueContext (value (run h' (findProblem (Some certificates)) w')) in
     outcome = Some "nolocal" \/ outcome = Some "dontmatch" ->
     secureDebug certificates = true /\ remoteCertificate certificates <> None).
Proof.
  intro rc. subst rc.
  destruct (readCertificates_value h w c) as [Hsecure [Hremote [Hlocal Hread]]].
  split; [|split].
  - intro Hl. destruct (Hlocal Hl) as [Hfound Hs].
    rewrite Hremote, Hfound, Hsecure. split; [discriminate|exact Hs].
  - exact Hread.
  - intros W' h' w' certificates outcome. subst outcome.
    rewrite findProblem_context.
    destruct (remoteCertificate certificates) as [r|]; cbn [truthy negb].
    + destruct (negb (r =? "")); cbn [negb].
      * destruct (secureDebug certificates).
        -- intros _. split; [reflexivity|discriminate].
        -- intros [Hn | Hn]; discriminate Hn.
      * intros [Hn | Hn]; discriminate Hn.
    + intros [Hn | Hn]; discriminate Hn.
Qed.

End Properties.

(** * Further behaviour of the view *)

Section Behaviour.

Context {env : Collaborators}.

Lemma value_ret {W A : Type} (h : Handler W) (a : A) (w : W) :
  value (run h (Ret a) w) = a.
Proof. reflexivity. Qed.

Lemma trace_ret {W A : Type} (h : Handler W) (a : A) (w : W) :
  trace (run h (Ret a) w) = [].
Proof. reflexivity. Qed.

Lemma some_inj {A : Type} (a b : A) : Some a = Some b -> a = b.
Proof. intro H. now inversion H. Qed.

Lemma string_append_assoc (a b c : string) : (a ++ b) ++ c = a ++ (b ++ c).
Proof. induction a as [|ch a IH]; simpl; [reflexivity | now rewrite IH]. Qed.

Lemma string_append_nil_r (a : string) : a ++ "" = a.
Proof. induction a as [|ch a IH]; simpl; [reflexivity | now rewrite IH]. Qed.

(** ** [resolveTreeItem] *)

(** When the request is not for a job node with a job and no tooltip yet,
    or there is no content, nothing is asked beyond the content. *)
Lemma resolveTreeItem_skipped {W : Type} (h : Handler W) (w : W) (el : DebugItem) :
  (fst (h _ getContent w) = None \/
   match el with
   | IssueItem _ => True
   | JobItem element => tooltip (item element) <> None \/ debugJob element = None
   end) ->
  value (run h (resolveTreeItem el) w) = None /\
  length (trace (run h (resolveTreeItem el) w)) = 1.
Proof.
  intro Hskip. unfold resolveTreeItem.
  rewrite run_bind, value_trigger, world_trigger, trace_trigger.
  cbn [value trace app length].
  destruct (fst (h _ getContent w)) as [content|].
  - destruct Hskip as [Hc | Hel]; [discriminate Hc|].
    destruct el as [element | i]; [|split; reflexivity].
    destruct (tooltip (item element)) as [tt|]; [split; reflexivity|].
    destruct Hel as [Ht | Hj]; [now elim Ht|].
    rewrite Hj. split; reflexivity.
  - destruct el; split; reflexivity.
Qed.

(** What a request that returns a node has done. *)
Lemma resolveTreeItem_returned {W : Type} (h : Handler W) (w : W) (el : DebugItem)
    (node : DebugJobItem) :
  value (run h (resolveTreeItem el) w) = Some node ->
  exists element job rest,
    el = JobItem element /\
    tooltip (item element) = None /\
    debugJob element = Some job /\
    node = {| item := set_tooltip (item element)
                        (Some (MarkdownString (tooltipText (portsTooltip job) ++ rest)));
              type := type element;
              startFunction := startFunction element;
              stopFunction := stopFunction element;
              debugJob := debugJob element;
              problem := problem element |}.
Proof.
  unfold resolveTreeItem.
  rewrite value_bind, value_trigger, world_trigger.
  destruct (fst (h _ getContent w)) as [content|]; [|destruct el; discriminate].
  destruct el as [element | i]; [|discriminate].
  destruct (tooltip (item element)) as [tt|] eqn:Htt; [discriminate|].
  destruct (debugJob element) as [job|] eqn:Hjob; [|discriminate].
  rewrite value_bind, value_trigger, world_trigger, value_bind, value_ret.
  intro Hnode. apply some_inj in Hnode. subst node.
  exists element, job. rewrite Hjob.
  assert (Hbase : portsTooltip job = MarkdownString (tooltipText (portsTooltip job)))
    by reflexivity.
  set (base := tooltipText (portsTooltip job)) in *. rewrite Hbase.
  set (md := match fst (h _ (readActiveJob content job) _) with
             | Some j => jobToMarkDown j
             | None => ""
             end).
  destruct (activeJobTruthy (fst (h _ (readActiveJob content job) _))).
  - destruct (type element).
    + exists md. rewrite value_ret.
      split; [reflexivity|]. split; [assumption|]. split; [reflexivity|].
      reflexivity.
    + rewrite value_bind, value_trigger.
      destruct (fst (h _ (readJVMInfo content job) _)) as [jvm|]; rewrite value_ret.
      * exists (md ++ (nl ++ nl) ++ jobToMarkDown (inl jvm)).
        split; [reflexivity|]. split; [assumption|]. split; [reflexivity|].
        unfold appendMarkdown. now rewrite !string_append_assoc.
      * exists (md ++ nl ++ nl).
        split; [reflexivity|]. split; [assumption|]. split; [reflexivity|].
        unfold appendMarkdown. now rewrite !string_append_assoc.
  - exists "". rewrite value_ret.
    split; [reflexivity|]. split; [assumption|]. split; [reflexivity|].
    now rewrite string_append_nil_r.
Qed.

(** A request returns a node only for a job node that has a job and no
    tooltip yet; the node returned keeps everything but its tooltip, which
    is a markdown text that begins with the ports line of its job. *)
Theorem resolveTreeItem_sets_only_tooltip {W : Type} (h : Handler W) (w : W)
    (el : DebugItem) (node : DebugJobItem) :
  value (run h (resolveTreeItem el) w) = Some node ->
  exists element job rest,
    el = JobItem element /\
    tooltip (item element) = None /\
    debugJob element = Some job /\
    debugJob node = Some job /\
    tooltip (item node) =
      Some (MarkdownString (tooltipText (portsTooltip job) ++ rest)) /\
    set_tooltip (item node) None = set_tooltip (item element) None /\
    type node = type element /\
    startFunction node = startFunction element /\
    stopFunction node = stopFunction element /\
    debugJob node = debugJob element /\
    problem node = problem element.
Proof.
  intro Hnode.
  destruct (resolveTreeItem_returned h w el node Hnode)
    as [element [job [rest [Hel [Htt [Hjob Heq]]]]]].
  exists element, job, rest. subst node.
  cbn [item type startFunction stopFunction debugJob problem set_tooltip tooltip
       itemLabel params contextValue description].
  repeat split; assumption.
Qed.

(** The tooltip is fetched once: a node that a request returned is not
    resolved again, and the second request asks for nothing but the
    content. *)
Theorem resolveTreeItem_once {W W' : Type} (h : Handler W) (w : W)
    (h' : Handler W') (w' : W') (el : DebugItem) (node : DebugJobItem) :
  value (run h (resolveTreeItem el) w) = Some node ->
  value (run h' (resolveTreeItem (JobItem node)) w') = None /\
  length (trace (run h' (resolveTreeItem (JobItem node)) w')) = 1.
Proof.
  intro Hnode.
  destruct (resolveTreeItem_returned h w el node Hnode)
    as [element [job [rest [_ [_ [_ Heq]]]]]].
  apply resolveTreeItem_skipped. right. left. subst node.
  cbn [item set_tooltip tooltip]. discriminate.
Qed.

(** A node as the constructor leaves it has no tooltip exactly when it is
    running, and then it has a job. *)
Lemma new_DebugJobItem_tooltip {W : Type} (h : Handler W) (w : W)
    ty lbl startF stopF job certificates :
  let node := value (run h (new_DebugJobItem ty lbl startF stopF job certificates) w) in
  tooltip (item node) =
    (if running certificates job then None else Some (PlainTooltip "")) /\
  debugJob node = job /\
  (running certificates job = true -> job <> None).
Proof.
  cbv zeta. rewrite new_DebugJobItem_value. cbn [buildItem item tooltip debugJob].
  repeat split. unfold running. destruct job; [discriminate|].
  rewrite andb_false_r. discriminate.
Qed.

(** Only running nodes are enriched: on a node fresh from the constructor,
    with the content at hand, a request returns the node exactly when the
    node is running; for a node that is offline or lacks its remote
    certificate it returns nothing and asks for nothing but the content. *)
Theorem resolveTreeItem_only_running {W W' : Type} (h : Handler W) (w : W)
    (h' : Handler W') (w' : W') ty lbl startF stopF job certificates
    (content : IBMiContent) :
  fst (h' _ getContent w') = Some content ->
  let node := value (run h (new_DebugJobItem ty lbl startF stopF job certificates) w) in
  (value (run h' (resolveTreeItem (JobItem node)) w') <> None <->
     running certificates job = true) /\
  (running certificates job = false ->
     length (trace (run h' (resolveTreeItem (JobItem node)) w')) = 1).
Proof.
  intros Hc node.
  destruct (new_DebugJobItem_tooltip h w ty lbl startF stopF job certificates)
    as [Htt [Hjob Hrun]].
  fold node in Htt, Hjob.
  destruct (running certificates job) eqn:Hr.
  - split; [|discriminate]. split; [reflexivity|]. intros _.
    destruct job as [j|]; [|now elim (Hrun eq_refl)].
    unfold resolveTreeItem.
    rewrite value_bind, value_trigger, world_trigger, Hc, Htt, Hjob.
    rewrite value_bind, value_trigger, world_trigger, value_bind.
    cbn [run value]. discriminate.
  - assert (Hskip : value (run h' (resolveTreeItem (JobItem node)) w') = None /\
                    length (trace (run h' (resolveTreeItem (JobItem node)) w')) = 1).
    { apply resolveTreeItem_skipped. right. left. rewrite Htt. discriminate. }
    destruct Hskip as [Hv Hl]. split.
    + rewrite Hv. split; [intro Hn; now elim Hn | discriminate].
    + intros _. exact Hl.
Qed.

(** The JVM is asked about only for a service node whose active job was
    found: a request that makes the [readJVMInfo] call is on a job node of
    type service, and its enrichment query did not come back empty. *)
Theorem jvm_query_only_for_service {W : Type} (h : Handler W) (w : W) (el : DebugItem) :
  existsb isJVMQuery (trace (run h (resolveTreeItem el) w)) = true ->
  exists element,
    el = JobItem element /\
    type element = service /\
    existsb emptyEnrichment (trace (run h (resolveTreeItem el) w)) = false /\
    length (trace (run h (resolveTreeItem el) w)) = 3.
Proof.
  unfold resolveTreeItem.
  rewrite run_bind, value_trigger, world_trigger, trace_trigger.
  cbn [value trace app existsb isJVMQuery emptyEnrichment orb length].
  destruct (fst (h _ getContent w)) as [content|]; [|destruct el; discriminate].
  destruct el as [element | i]; [|discriminate].
  destruct (tooltip (item element)); [discriminate|].
  destruct (debugJob element) as [job|]; [|discriminate].
  rewrite run_bind, value_trigger, world_trigger, trace_trigger.
  rewrite run_bind.
  cbn [value trace app existsb isJVMQuery emptyEnrichment orb length].
  destruct (fst (h _ (readActiveJob content job) _)) as [a|]; [|discriminate].
  destruct (activeJobTruthy (Some a)); [|discriminate].
  destruct (type element) eqn:Hty; [discriminate|].
  rewrite trace_bind, trace_trigger, value_trigger.
  intros _. exists element.
  destruct (fst (h _ (readJVMInfo content job) _)); repeat split; assumption.
Qed.

(** ** [jobToMarkDown] *)

Lemma nonNull_app (r1 r2 : DB2Row) : nonNull (r1 ++ r2)%list = (nonNull r1 ++ nonNull r2)%list.
Proof. apply filter_app. Qed.

(** A column whose value is null leaves no mark, wherever it stands in the
    row. *)
Theorem jobToMarkDown_skips_null (r1 r2 : DB2Row) (key : string) :
  jobToMarkDown (inl (r1 ++ (key, DB2Null) :: r2)%list) =
  jobToMarkDown (inl (r1 ++ r2)%list).
Proof.
  unfold jobToMarkDown.
  change (filter (fun kv => negb (DB2Value_isNull (snd kv)))) with nonNull.
  rewrite (nonNull_app r1 ((key, DB2Null) :: r2)), (nonNull_app r1 r2).
  reflexivity.
Qed.

(** One line per column that has a value, in the order of the row, with a
    line feed between two lines and none at the end; a row without values
    gives the empty text. *)
Theorem jobToMarkDown_lines (key : string) (v : DB2Value) (row : DB2Row) :
  v <> DB2Null ->
  jobToMarkDown (inl ((key, v) :: row)) =
    (if match nonNull row with [] => true | _ => false end
     then "- " ++ t key [] ++ ": " ++ DB2Value_toString v
     else "- " ++ t key [] ++ ": " ++ DB2Value_toString v ++ nl ++ jobToMarkDown (inl row)) /\
  (nonNull row = [] -> jobToMarkDown (inl row) = "").
Proof.
  intro Hv. unfold jobToMarkDown.
  change (filter (fun kv => negb (DB2Value_isNull (snd kv)))) with nonNull.
  split.
  - assert (Hcons : nonNull ((key, v) :: row) = (key, v) :: nonNull row).
    { unfold nonNull. cbn [filter snd]. destruct v; try reflexivity. now elim Hv. }
    rewrite Hcons. destruct (nonNull row) as [|kv rest].
    + reflexivity.
    + cbn [map join fst snd]. rewrite !string_append_assoc. reflexivity.
  - intro Hnil. now rewrite Hnil.
Qed.

(** ** [updateDebugBrowser] *)

(** Every update ends with one full refresh: the change event is fired
    once, for the whole tree, as the last call.  Without a connection the
    title goes back to the plain one, the description is emptied and
    api/debug/server is not called at all. *)
Theorem updateDebugBrowser_ends_with_refresh {W : Type} (h : Handler W) (w : W) :
  (exists pre u,
     trace (run h updateDebugBrowser w) = (pre ++ [Observed (fire None) u])%list /\
     existsb isFire pre = false) /\
  (fst (h _ getConnection w) = None ->
   exists u1 u2 u3,
     trace (run h updateDebugBrowser w) =
       [Observed getConnection None; Observed (setTitle "IBM i debugger") u1;
        Observed (setDescription "") u2; Observed (fire None) u3]) /\
  (forall c, fst (h _ getConnection w) = Some c ->
   exists d u1 b u2 u3,
     trace (run h updateDebugBrowser w) =
       [Observed getConnection (Some c); Observed getDebugServiceDetails d;
        Observed (setTitle ("IBM i debugger " ++ version d)) u1;
        Observed isDebugEngineRunning b;
        Observed (setDescription (if b then t "online" [] else t "offline" [])) u2;
        Observed (fire None) u3]).
Proof.
  unfold updateDebugBrowser, DebugBrowser_refresh.
  rewrite trace_bind, trace_trigger, value_trigger, world_trigger.
  cbn [option_map].
  destruct (fst (h _ getConnection w)) as [c|].
  - rewrite trace_bind, trace_bind, trace_trigger, value_trigger, world_trigger.
    rewrite trace_bind, trace_trigger, world_trigger.
    rewrite trace_bind, trace_trigger, value_trigger, world_trigger.
    rewrite !trace_trigger.
    simpl app.
    split; [|split].
    + eexists [_; _; _; _; _]. eexists. split; reflexivity.
    + discriminate.
    + intros c' Hc. apply some_inj in Hc. subst c'.
      do 5 eexists. reflexivity.
  - rewrite trace_bind, trace_bind, !trace_trigger.
    simpl app.
    split; [|split].
    + eexists [_; _; _]. eexists. split; reflexivity.
    + intros _. do 3 eexists. reflexivity.
    + discriminate.
Qed.

(** ** A refresh without a connection *)

(** Without a connection the tree is empty and nothing but the connection
    is asked for: no certificate is looked up and no job is queried. *)
Theorem refresh_without_connection {W : Type} (h : Handler W) (w : W) :
  fst (h _ getConnection w) = None ->
  value (run h (getChildren None) w) = [] /\
  value (run h getRootItems w) = [] /\
  trace (run h (getChildren None) w) = [Observed getConnection None].
Proof.
  intro Hc. unfold getChildren.
  rewrite value_bind, trace_bind, value_ret, trace_ret, app_nil_r.
  rewrite (getRootItems_disconnected h w Hc).
  repeat split.
  unfold getRootItems. rewrite trace_bind, trace_trigger, value_trigger, Hc.
  reflexivity.
Qed.

(** ** The calls of [readCertificates] *)

(** The certificates are collected with at most four calls.  When the
    remote certificate does not exist it is the only call: the remote
    certificate is read exactly when it exists.  Unless secure debug is on,
    the local certificate is neither looked for nor read. *)
Theorem readCertificates_calls {W : Type} (h : Handler W) (w : W) (c : IBMi) :
  let tr := trace (run h (readCertificates c) w) in
  length tr <= 4 /\
  (fst (h _ (remoteServerCertificateExists c) w) = false -> length tr = 1) /\
  (existsb isRemoteRead tr = fst (h _ (remoteServerCertificateExists c) w)) /\
  (debugIsSecure c <> Some true -> existsb isLocalCall tr = false).
Proof.
  cbv zeta. unfold readCertificates.
  rewrite trace_bind, value_trigger, world_trigger, trace_trigger.
  destruct (fst (h _ (remoteServerCertificateExists c) w)).
  2:{ rewrite trace_ret. cbn. repeat split; try lia; try reflexivity. }
  rewrite trace_bind, value_trigger, world_trigger, trace_trigger.
  destruct (debugIsSecure c) as [[|]|].
  - rewrite trace_bind, value_trigger, world_trigger, trace_trigger.
    destruct (fst (h _ (localClientCertExists c) _)).
    + rewrite trace_bind, trace_trigger, trace_ret. cbn.
      repeat split; try lia; try discriminate. intro Hn. now elim Hn.
    + rewrite trace_ret. cbn.
      repeat split; try lia; try discriminate. intro Hn. now elim Hn.
  - rewrite trace_ret. cbn. repeat split; try lia; try discriminate.
  - rewrite trace_ret. cbn. repeat split; try lia; try discriminate.
Qed.

(** ** The service node of a refresh *)

(** The certificates a refresh collects, by the answers it gets. *)
Lemma readCertificates_result {W : Type} (h : Handler W) (w : W) (c : IBMi) :
  let found := fst (h _ (remoteServerCertificateExists c) w) in
  let w1 := snd (h _ (remoteServerCertificateExists c) w) in
  let remote := fst (h _ (readRemoteCertificate c) w1) in
  let w2 := snd (h _ (readRemoteCertificate c) w1) in
  let secure := match debugIsSecure c with Some b => b | None => false end in
  let localFound := fst (h _ (localClientCertExists c) w2) in
  let w3 := snd (h _ (localClientCertExists c) w2) in
  let loc := fst (h _ (readFileSync (getLocalCertPath c)) w3) in
  value (run h (readCertificates c) w) =
    {| secureDebug := secure;
       remoteCertificate := if found then Some remote else None;
       localCertificate := if found && secure && localFound then Some loc else None |}.
Proof.
  cbv zeta. unfold readCertificates.
  rewrite value_bind, value_trigger, world_trigger.
  destruct (fst (h _ (remoteServerCertificateExists c) w)); [|reflexivity].
  rewrite value_bind, value_trigger, world_trigger.
  destruct (match debugIsSecure c with Some b => b | None => false end); [|reflexivity].
  rewrite value_bind, value_trigger, world_trigger.
  destruct (fst (h _ (localClientCertExists c) _)); [|reflexivity].
  rewrite value_bind, value_trigger. reflexivity.
Qed.

(** The problem of the service node, from what the refresh was told: a
    remote certificate that is missing or empty is [noremote]; past that,
    without secure debug there is no problem; with it, a local certificate
    that is missing or empty is [nolocal], one that differs from the remote
    text is [dontmatch], and equal texts are no problem. *)
Theorem service_node_problem {W : Type} (h : Handler W) (w : W) (c : IBMi) :
  fst (h _ getConnection w) = Some c ->
  let w0 := snd (h _ getConnection w) in
  let found := fst (h _ (remoteServerCertificateExists c) w0) in
  let w1 := snd (h _ (remoteServerCertificateExists c) w0) in
  let remote := fst (h _ (readRemoteCertificate c) w1) in
  let w2 := snd (h _ (readRemoteCertificate c) w1) in
  let secure := match debugIsSecure c with Some b => b | None => false end in
  let localFound := fst (h _ (localClientCertExists c) w2) in
  let w3 := snd (h _ (localClientCertExists c) w2) in
  let loc := fst (h _ (readFileSync (getLocalCertPath c)) w3) in
  exists serverNode serviceNode,
    value (run h getRootItems w) = [serverNode; serviceNode] /\
    issueContext (problem serviceNode) =
      (if negb found || (remote =? "") then Some "noremote"
       else if negb secure then None
       else if negb localFound || (loc =? "") then Some "nolocal"
       else if remote =? loc then None
       else Some "dontmatch").
Proof.
  intro Hc. cbv zeta.
  pose proof (getRootItems_connected h w c Hc) as Hitems.
  cbv zeta in Hitems. rewrite Hitems.
  eexists. eexists. split; [reflexivity|].
  cbn [buildItem problem].
  rewrite findProblem_context.
  pose proof (readCertificates_result h (snd (h _ getConnection w)) c) as Hrc.
  cbv zeta in Hrc. rewrite Hrc.
  cbn [secureDebug remoteCertificate localCertificate].
  generalize (fst (h _ (readFileSync (getLocalCertPath c))
    (snd (h _ (localClientCertExists c) (snd (h _ (readRemoteCertificate c)
      (snd (h _ (remoteServerCertificateExists c) (snd (h _ getConnection w))))))))))
    as loc.
  generalize (fst (h _ (localClientCertExists c) (snd (h _ (readRemoteCertificate c)
      (snd (h _ (remoteServerCertificateExists c) (snd (h _ getConnection w))))))))
    as localFound.
  generalize (fst (h _ (readRemoteCertificate c)
      (snd (h _ (remoteServerCertificateExists c) (snd (h _ getConnection w))))))
    as remote.
  generalize (fst (h _ (remoteServerCertificateExists c) (snd (h _ getConnection w))))
    as found.
  generalize (match debugIsSecure c with Some b => b | None => false end) as secure.
  intros secure found remote localFound loc.
  destruct found, secure, localFound; cbn [andb orb negb truthy strictNeq];
    try reflexivity;
    destruct (remote =? ""); cbn [negb]; try reflexivity;
    destruct (loc =? ""); cbn [negb]; try reflexivity;
    now destruct (remote =? loc).
Qed.

(** ** How a node is shown *)

(** The problem the constructor finds is one of three, and only the
    missing remote certificate comes with a detail. *)
Lemma findProblem_shapes {W : Type} (h : Handler W) (w : W)
    (certificates : option Certificates) (pb : CertificateIssue) :
  value (run h (findProblem certificates) w) = Some pb ->
  (context pb = "noremote" /\ cantRun certificates = true /\
   label pb = t "remote.certificate.not.found" [] /\
   detail pb = Some (t "remote.certificate.not.found.detail"
                       ["debug_service.pfx";
                        getRemoteCertificateDirectory (fst (h _ getConnection w))])) \/
  (context pb = "nolocal" /\ cantRun certificates = false /\
   label pb = t "local.certificate.not.found" [] /\ detail pb = None) \/
  (context pb = "dontmatch" /\ cantRun certificates = false /\
   label pb = t "local.dont.match.remote" [] /\ detail pb = None).
Proof.
  destruct certificates as [c|]; [|discriminate].
  unfold findProblem, cantRun.
  destruct (negb (truthy (remoteCertificate c))).
  - rewrite value_bind, value_trigger, value_ret.
    intro H. apply some_inj in H. subst pb. left. repeat split.
  - destruct (secureDebug c); [|discriminate].
    destruct (negb (truthy (localCertificate c))).
    + rewrite value_ret. intro H. apply some_inj in H. subst pb.
      right. left. repeat split.
    + destruct (strictNeq _ _); [|discriminate].
      rewrite value_ret. intro H. apply some_inj in H. subst pb.
      right. right. repeat split.
Qed.

Lemma findProblem_none {W : Type} (h : Handler W) (w : W)
    (certificates : option Certificates) :
  value (run h (findProblem certificates) w) = None ->
  cantRun certificates = false.
Proof.
  destruct certificates as [c|]; [|reflexivity].
  intro Hn. unfold cantRun.
  destruct (truthy (remoteCertificate c)) eqn:Ht; [reflexivity|].
  apply (findProblem_noremote_iff h w c) in Ht. rewrite Hn in Ht. discriminate.
Qed.

(** How a node looks, by its problem and its job: a missing remote
    certificate gives the warning icon in the failed colour, any other
    problem the warning icon in the queued colour; without a problem the
    node passes when it has a job and is in error when it has none.  Short
    of a missing remote certificate the node is shown running whenever it
    has a job, also under a warning, and its description is the name of the
    job; otherwise the description says offline. *)
Theorem node_presentation {W : Type} (h : Handler W) (w : W)
    ty lbl startF stopF job certificates :
  let node := value (run h (new_DebugJobItem ty lbl startF stopF job certificates) w) in
  let hasJob := match job with Some _ => true | None => false end in
  params (item node) = Some
    (match issueContext (problem node) with
     | Some ctx =>
         {| state := CollapsibleState_Expanded; icon := "warning";
            color := if ctx =? "noremote" then "testing.iconFailed"
                     else "testing.iconQueued" |}
     | None =>
         if hasJob
         then {| state := CollapsibleState_None; icon := "pass";
                 color := "testing.iconPassed" |}
         else {| state := CollapsibleState_None; icon := "error";
                 color := "testing.iconFailed" |}
     end) /\
  shownRunning node =
    (match issueContext (problem node) with
     | Some ctx => negb (ctx =? "noremote") && hasJob
     | None => hasJob
     end) /\
  description (item node) =
    (if shownRunning node then option_map name job else Some (t "offline" [])).
Proof.
  cbv zeta. rewrite new_DebugJobItem_value, shownRunning_buildItem.
  cbn [buildItem item params description problem].
  destruct (value (run h (findProblem certificates) w)) as [pb|] eqn:Hpb.
  - destruct (findProblem_shapes h w certificates pb Hpb)
      as [[Hctx [Hcant _]] | [[Hctx [Hcant _]] | [Hctx [Hcant _]]]];
      unfold running; cbn [issueContext option_map]; rewrite Hctx, Hcant;
      repeat split.
  - pose proof (findProblem_none h w certificates Hpb) as Hcant.
    unfold running. cbn [issueContext option_map]. rewrite Hcant.
    destruct job; repeat split.
Qed.

(** ** The children of a node *)

(** A node the constructor built can be expanded exactly when it is
    blocked.  Expanding it calls no collaborator and gives one issue item,
    marked with the context of the problem; the item always has a tooltip,
    which is the detail when there is one, and a description only for the
    missing remote certificate.  A node that is not blocked has no children
    of its own: asked for them, the browser answers with the root items. *)
Theorem children_of_node {W W' : Type} (h : Handler W) (w : W)
    (h' : Handler W') (w' : W') ty lbl startF stopF job certificates :
  let node := value (run h (new_DebugJobItem ty lbl startF stopF job certificates) w) in
  (exists p, params (item node) = Some p /\
             (state p = CollapsibleState_Expanded <-> blocked node = true) /\
             (state p = CollapsibleState_None <-> blocked node = false)) /\
  (blocked node = true ->
   exists pb,
     problem node = Some pb /\
     run h' (getChildren (Some (JobItem node))) w' =
       {| value := [IssueItem (new_CertificateIssueItem pb)]; world := w'; trace := [] |} /\
     contextValue (new_CertificateIssueItem pb) = Some ("certificateIssue_" ++ context pb) /\
     (context pb = "noremote" \/ context pb = "nolocal" \/ context pb = "dontmatch") /\
     tooltip (new_CertificateIssueItem pb) =
       Some (PlainTooltip (match detail pb with Some d => d | None => "" end)) /\
     (description (new_CertificateIssueItem pb) <> None -> context pb = "noremote")) /\
  (blocked node = false ->
   run h' (getChildren (Some (JobItem node))) w' = run h' (getChildren None) w').
Proof.
  cbv zeta. rewrite new_DebugJobItem_value, blocked_buildItem.
  destruct (value (run h (findProblem certificates) w)) as [pb|] eqn:Hpb.
  - split; [|split].
    + eexists. split; [reflexivity|]. cbn [state]. split; split; try reflexivity; discriminate.
    + intros _. exists pb. split; [reflexivity|]. split; [reflexivity|].
      split; [reflexivity|].
      destruct (findProblem_shapes h w certificates pb Hpb)
        as [[Hctx [_ [_ Hd]]] | [[Hctx [_ [_ Hd]]] | [Hctx [_ [_ Hd]]]]].
      * split; [now left|]. split; [|intros _; exact Hctx].
        unfold new_CertificateIssueItem. cbn [tooltip]. rewrite Hd. cbn [truthy].
        destruct (_ =? "") eqn:He; [|reflexivity].
        apply String.eqb_eq in He. now rewrite He.
      * split; [right; now left|]. split.
        -- unfold new_CertificateIssueItem. cbn [tooltip]. now rewrite Hd.
        -- unfold new_CertificateIssueItem. cbn [description]. rewrite Hd. intro Hn. now elim Hn.
      * split; [right; now right|]. split.
        -- unfold new_CertificateIssueItem. cbn [tooltip]. now rewrite Hd.
        -- unfold new_CertificateIssueItem. cbn [description]. rewrite Hd. intro Hn. now elim Hn.
    + discriminate.
  - split; [|split].
    + eexists. split; [reflexivity|]. cbn [state]. split; split; try reflexivity; discriminate.
    + discriminate.
    + intros _. reflexivity.
Qed.

(** ** The commands on the nodes of a refresh *)

(** The service node acts on the connection its refresh saw, the server
    node on the server: starting a node calls the progress indicator and
    then its start function once, and gives back what that returned; the
    same holds for stopping. *)
Theorem root_nodes_commands {W W' : Type} (h : Handler W) (w : W)
    (h' : Handler W') (w' : W') (c : IBMi) :
  fst (h _ getConnection w) = Some c ->
  exists serverNode serviceNode,
    value (run h getRootItems w) = [serverNode; serviceNode] /\
    (exists u b,
       trace (run h' (command_job_start serverNode) w') =
         [Observed (withProgress (t "start.debug.server.task" [])) u; Observed startServer b] /\
       value (run h' (command_job_start serverNode) w') = b) /\
    (exists u b,
       trace (run h' (command_job_stop serverNode) w') =
         [Observed (withProgress (t "stop.debug.server.task" [])) u; Observed stopServer b] /\
       value (run h' (command_job_stop serverNode) w') = b) /\
    (exists u b,
       trace (run h' (command_job_start serviceNode) w') =
         [Observed (withProgress (t "start.debug.service.task" [])) u;
          Observed (startService c) b] /\
       value (run h' (command_job_start serviceNode) w') = b) /\
    (exists u b,
       trace (run h' (command_job_stop serviceNode) w') =
         [Observed (withProgress (t "stop.debug.service.task" [])) u;
          Observed (stopService c) b] /\
       value (run h' (command_job_stop serviceNode) w') = b).
Proof.
  intro Hc. pose proof (getRootItems_connected h w c Hc) as Hitems.
  cbv zeta in Hitems. rewrite Hitems.
  eexists. eexists. split; [reflexivity|].
  repeat split; eexists; eexists; split; reflexivity.
Qed.

End Behaviour.

(** ** The component registry *)

Section Registry.

Context {env : Collaborators}.

Variable getState : Components.ComponentT -> Components.ComponentState.
Variable checkState : Components.ComponentT -> Components.ComponentT.

Lemma ComponentState_eqb_eq (a b : Components.ComponentState) :
  Components.ComponentState_eqb a b = true <-> a = b.
Proof. destruct a, b; split; intro H; try reflexivity; discriminate H. Qed.

(** The registry hands out a component only when the component says it is
    installed, and then it is the registry's own; asking a registry that
    has not started up throws, and after [startup] it never does. *)
Theorem get_only_installed (this : Components.ComponentManager) (conn : IBMi) :
  (forall component,
     Components.get getState this = Components.Returns (Some component) <->
     Components.GetNewLibl this = Some component /\
     getState component = Components.Installed) /\
  (Components.get getState this = Components.Throws <->
   Components.GetNewLibl this = None) /\
  Components.get getState Components.new_ComponentManager = Components.Throws /\
  Components.get getState (Components.startup checkState this conn) =
    Components.Returns
      (if Components.ComponentState_eqb
            (getState (checkState (Components.new_ComponentT conn))) Components.Installed
       then Some (checkState (Components.new_ComponentT conn))
       else None).
Proof.
  unfold Components.get.
  split; [|split; [|split]].
  - intro component. destruct (Components.GetNewLibl this) as [c|].
    + destruct (Components.ComponentState_eqb (getState c) Components.Installed) eqn:He.
      * apply ComponentState_eqb_eq in He. split.
        -- intro H. injection H as H. subst c. split; [reflexivity|exact He].
        -- intros [H _]. injection H as H. now subst c.
      * split; [discriminate|]. intros [H Hi]. injection H as H. subst c.
        apply ComponentState_eqb_eq in Hi. rewrite Hi in He. discriminate.
    + split; [discriminate|]. intros [H _]. discriminate.
  - destruct (Components.GetNewLibl this) as [c|].
    + destruct (Components.ComponentState_eqb _ _); split; discriminate.
    + split; reflexivity.
  - reflexivity.
  - cbn [Components.startup Components.GetNewLibl].
    now destruct (Components.ComponentState_eqb _ _).
Qed.

End Registry.

(** ** The properties on the sample installation *)

#[local] Existing Instance sample.

Lemma noRemote_dominates_witness :
  let c := {| secureDebug := false; remoteCertificate := None;
              localCertificate := Some "CERT" |} in
  remoteCertificate c = None /\
  issueContext (problem (value (run fixedAnswers
    (new_DebugJobItem (env := sample) service "debug.service"
       (trigger (startService sampleHost)) (trigger (stopService sampleHost))
       (Some sampleJob) (Some c)) sampleRemote))) = Some "noremote".
Proof.
  split; [reflexivity|].
  apply (noRemote_dominates (env := sample) fixedAnswers sampleRemote service
           "debug.service" (trigger (startService sampleHost))
           (trigger (stopService sampleHost)) (Some sampleJob)
           {| secureDebug := false; remoteCertificate := None;
              localCertificate := Some "CERT" |}).
  reflexivity.
Defined.

Lemma running_iff_job_and_remote_witness :
  let c := {| secureDebug := true; remoteCertificate := None;
              localCertificate := None |} in
  let node := value (run fixedAnswers
    (new_DebugJobItem (env := sample) service "debug.service"
       (trigger (startService sampleHost)) (trigger (stopService sampleHost))
       (Some sampleJob) (Some c)) sampleRemote) in
  running (Some c) (Some sampleJob) = false /\ blocked node = true.
Proof.
  apply (running_iff_job_and_remote (env := sample) fixedAnswers sampleRemote service
           "debug.service" (trigger (startService sampleHost))
           (trigger (stopService sampleHost)) (Some sampleJob)
           {| secureDebug := true; remoteCertificate := None;
              localCertificate := None |}).
  - discriminate.
  - reflexivity.
Defined.

(** Claim C3 as stated fails on an empty certificate text: a remote certificate
    that is present but empty gives [noremote] though secure debug is off,
    and a local certificate that is present but empty gives [nolocal], not
    [dontmatch]. *)
Lemma trust_precedence_counterexample :
  let c0 := {| secureDebug := false; remoteCertificate := Some "";
               localCertificate := None |} in
  let c1 := {| secureDebug := true; remoteCertificate := Some "CERT";
               localCertificate := Some "" |} in
  let outcome c := issueContext (problem (value (run fixedAnswers
    (new_DebugJobItem (env := sample) service "debug.service"
       (trigger (startService sampleHost)) (trigger (stopService sampleHost))
       None (Some c)) sampleRemote))) in
  (remoteCertificate c0 <> None /\ secureDebug c0 = false /\
   outcome c0 = Some "noremote" /\ outcome c0 <> None) /\
  (remoteCertificate c1 <> None /\ secureDebug c1 = true /\
   localCertificate c1 <> None /\ remoteCertificate c1 <> localCertificate c1 /\
   outcome c1 = Some "nolocal" /\ outcome c1 <> Some "dontmatch").
Proof.
  cbv zeta. repeat split; try discriminate; reflexivity.
Qed.

Lemma trust_precedence_witness :
  let c := {| secureDebug := true; remoteCertificate := Some "CERT";
              localCertificate := Some "OTHER" |} in
  issueContext (problem (value (run fixedAnswers
    (new_DebugJobItem (env := sample) service "debug.service"
       (trigger (startService sampleHost)) (trigger (stopService sampleHost))
       (Some sampleJob) (Some c)) sampleRemote))) = Some "dontmatch".
Proof.
  refine (proj1 (trust_precedence (env := sample) fixedAnswers sampleRemote service
           "debug.service" (trigger (startService sampleHost))
           (trigger (stopService sampleHost)) (Some sampleJob)
           {| secureDebug := true; remoteCertificate := Some "CERT";
              localCertificate := Some "OTHER" |} "CERT" _ _)).
  - reflexivity.
  - discriminate.
Defined.

Lemma restart_stops_only_after_start_witness :
  run fixedAnswers (command_job_restart sampleServerNode) sampleRemote =
  run fixedAnswers (DebugJobItem_start sampleServerNode) sampleRemote /\
  existsb isStopCall
    (trace (run fixedAnswers (command_job_restart sampleServerNode) sampleRemote)) = false.
Proof.
  destruct (restart_stops_only_after_start (env := sample) fixedAnswers sampleRemote
              sampleServerNode) as [_ Hfail].
  destruct (Hfail eq_refl) as [Hrun [_ Hcalls]].
  split; [exact Hrun|].
  apply (Hcalls _ fixedAnswers sampleRemote).
  left. reflexivity.
Defined.



Lemma empty_enrichment_keeps_node_witness :
  existsb emptyEnrichment
    (trace (run fixedAnswers (resolveTreeItem (JobItem sampleServerNode)) sampleRemote)) = true /\
  exists job,
    debugJob sampleServerNode = Some job /\
    option_map (fun node => tooltip (item node))
      (value (run fixedAnswers (resolveTreeItem (JobItem sampleServerNode)) sampleRemote)) =
      Some (Some (portsTooltip job)).
Proof.
  split; [reflexivity|].
  destruct (empty_enrichment_keeps_node (env := sample) fixedAnswers sampleRemote
              sampleServerNode eq_refl) as [job [Hjob [Hval _]]].
  exists job. split; [exact Hjob|]. rewrite Hval. reflexivity.
Defined.

Lemma refresh_deterministic_witness :
  map answer (trace (run fixedAnswers (getRootItems (env := sample)) sampleRemote)) =
  map answer (trace (run fixedAnswers (getRootItems (env := sample)) sampleRemoteLater)) /\
  value (run fixedAnswers (getRootItems (env := sample)) sampleRemote) =
  value (run fixedAnswers (getRootItems (env := sample)) sampleRemoteLater).
Proof.
  split; [reflexivity|].
  apply (refresh_deterministic (env := sample) fixedAnswers fixedAnswers
           sampleRemote sampleRemoteLater).
  reflexivity.
Defined.

Lemma server_node_needs_no_certificate_witness :
  fst (fixedAnswers _ getConnection sampleRemote) = Some sampleHost /\
  exists serverNode serviceNode,
    value (run fixedAnswers (getRootItems (env := sample)) sampleRemote) =
      [serverNode; serviceNode] /\
    problem serverNode = None /\
    blocked serviceNode = true.
Proof.
  split; [reflexivity|].
  destruct (server_node_needs_no_certificate (env := sample) fixedAnswers sampleRemote
              sampleHost eq_refl)
    as [serverNode [serviceNode [Hitems [_ [_ [_ [_ [Hproblem _]]]]]]]].
  exists serverNode, serviceNode.
  split; [exact Hitems|]. split; [exact Hproblem|].
  injection Hitems as _ Hservice. rewrite <- Hservice. reflexivity.
Defined.

Lemma empty_remote_certificate_is_absent_witness :
  fst (fixedAnswers _ (remoteServerCertificateExists sampleHost) sampleRemote) = true /\
  fst (fixedAnswers _ (readRemoteCertificate sampleHost) sampleRemote) = "" /\
  exists serverNode serviceNode,
    value (run fixedAnswers (getRootItems (env := sample)) sampleRemote) =
      [serverNode; serviceNode] /\
    issueContext (problem serviceNode) = Some "noremote".
Proof.
  split; [reflexivity|]. split; [reflexivity|].
  destruct (proj2 (empty_remote_certificate_is_absent (env := sample) fixedAnswers
                     sampleRemote sampleHost) eq_refl eq_refl eq_refl)
    as [serverNode [serviceNode [Hitems [_ [Hctx _]]]]].
  exists serverNode, serviceNode. split; [exact Hitems|exact Hctx].
Defined.

Lemma local_certificate_needs_remote_and_secure_witness :
  let rc := run fixedAnswers (readCertificates (env := sample) sampleHost) sampleRemote in
  localCertificate (value rc) <> None /\
  remoteCertificate (value rc) <> None /\
  secureDebug (value rc) = true.
Proof.
  cbv zeta.
  assert (Hl : localCertificate (value (run fixedAnswers
                 (readCertificates (env := sample) sampleHost) sampleRemote)) <> None)
    by discriminate.
  split; [exact Hl|].
  exact (proj1 (local_certificate_needs_remote_and_secure (env := sample) fixedAnswers
                  sampleRemote sampleHost) Hl).
Defined.

(** ** The sample installation at work *)

Example sample_refresh_context_values :
  map (fun node => contextValue (item node))
      (value (run fixedAnswers getRootItems sampleRemote)) =
  [Some "debugJob_server_on"; Some "debugJob_service"].
Proof. reflexivity. Qed.

Example sample_refresh_calls :
  map answer (trace (run fixedAnswers getRootItems sampleRemote)) =
  [AConnection (Some sampleHost); ABool true; AString ""; ABool true; AString "CERT";
   AJob (Some sampleJob); AJob (Some sampleJob); AConnection (Some sampleHost)].
Proof. reflexivity. Qed.

Example sample_issue_item :
  option_map (map treeItem)
    (DebugJobItem_getChildren
       (buildItem service "debug.service" (trigger (startService sampleHost))
          (trigger (stopService sampleHost)) None
          (Some {| secureDebug := true; remoteCertificate := Some "CERT";
                   localCertificate := None |})
          (Some {| label := "local.certificate.not.found"; detail := None;
                   context := "nolocal" |}))) =
  Some [{| itemLabel := "local.certificate.not.found"; params := None;
           contextValue := Some "certificateIssue_nolocal"; description := None;
           tooltip := Some (PlainTooltip "") |}].
Proof. reflexivity. Qed.

Example sample_ports_tooltip :
  portsTooltip sampleJob = MarkdownString ("listening.on.port 8005" ++ nl ++ nl).
Proof. reflexivity. Qed.

Example sample_two_ports_tooltip :
  portsTooltip {| name := "QDBGSRV"; ports := [8005%Z; 8009%Z] |} =
  MarkdownString ("listening.on.ports 8005, 8009" ++ nl ++ nl).
Proof. reflexivity. Qed.

Example sample_jobToMarkDown :
  jobToMarkDown (inl [("JOB_NAME", DB2String "QDBGSRV"); ("SUBSYSTEM", DB2Null);
                      ("THREAD_COUNT", DB2Number {| Number_toString := "12" |})]) =
  "- JOB_NAME: QDBGSRV" ++ nl ++ "- THREAD_COUNT: 12".
Proof. reflexivity. Qed.

Example sample_resolved_tooltip :
  option_map (fun node => tooltip (item node))
    (value (run fixedAnswers
              (resolveTreeItem (JobItem
                 (buildItem service "debug.service" (trigger (startService sampleHost))
                    (trigger (stopService sampleHost)) (Some sampleJob) None None)))
              sampleRemoteLater)) =
  Some (Some (MarkdownString
    ("listening.on.port 8005" ++ nl ++ nl ++ "QDBGSRV is active" ++ nl ++ nl ++
     "- JAVA_VERSION: 11"))).
Proof. reflexivity. Qed.

Example sample_restart_after_start :
  map answer (trace (run fixedAnswers (command_job_restart sampleServerNode)
                       sampleRemoteLater)) =
  [AUnit; ABool true; AUnit; ABool true].
Proof. reflexivity. Qed.

(** ** The further behaviour on the sample installation *)

Lemma resolveTreeItem_sets_only_tooltip_witness :
  exists node,
    value (run fixedAnswers (resolveTreeItem (JobItem sampleServiceNode)) sampleRemoteLater) =
      Some node /\
    description (item node) = description (item sampleServiceNode) /\
    problem node = problem sampleServiceNode.
Proof.
  eexists. split; [reflexivity|].
  destruct (resolveTreeItem_sets_only_tooltip (env := sample) fixedAnswers sampleRemoteLater
              (JobItem sampleServiceNode) _ eq_refl)
    as [element [job [rest [Hel [_ [_ [_ [_ [Hitem [_ [_ [_ [_ Hpb]]]]]]]]]]]]].
  injection Hel as Hel. subst element.
  split; [exact (f_equal description Hitem) | exact Hpb].
Defined.

Lemma resolveTreeItem_once_witness :
  exists node,
    value (run fixedAnswers (resolveTreeItem (JobItem sampleServiceNode)) sampleRemoteLater) =
      Some node /\
    value (run fixedAnswers (resolveTreeItem (JobItem node)) sampleRemoteLater) = None.
Proof.
  eexists. split; [reflexivity|].
  exact (proj1 (resolveTreeItem_once (env := sample) fixedAnswers sampleRemoteLater
                  fixedAnswers sampleRemoteLater (JobItem sampleServiceNode) _ eq_refl)).
Defined.

Lemma resolveTreeItem_only_running_witness :
  let certificates := {| secureDebug := false; remoteCertificate := None;
                         localCertificate := None |} in
  let node := value (run fixedAnswers
    (new_DebugJobItem service "debug.service" (trigger (startService sampleHost))
       (trigger (stopService sampleHost)) (Some sampleJob) (Some certificates))
    sampleRemote) in
  fst (fixedAnswers _ getContent sampleRemote) = Some sampleContent /\
  length (trace (run fixedAnswers (resolveTreeItem (JobItem node)) sampleRemote)) = 1.
Proof.
  split; [reflexivity|].
  refine (proj2 (resolveTreeItem_only_running (env := sample) fixedAnswers sampleRemote
                   fixedAnswers sampleRemote service "debug.service"
                   (trigger (startService sampleHost)) (trigger (stopService sampleHost))
                   (Some sampleJob)
                   (Some {| secureDebug := false; remoteCertificate := None;
                            localCertificate := None |})
                   sampleContent eq_refl) _).
  reflexivity.
Defined.

Lemma jvm_query_only_for_service_witness :
  existsb isJVMQuery
    (trace (run fixedAnswers (resolveTreeItem (JobItem sampleServiceNode)) sampleRemoteLater)) =
    true /\
  exists element, JobItem sampleServiceNode = JobItem element /\ type element = service.
Proof.
  split; [reflexivity|].
  destruct (jvm_query_only_for_service (env := sample) fixedAnswers sampleRemoteLater
              (JobItem sampleServiceNode) eq_refl) as [element [Hel [Hty _]]].
  exists element. split; [exact Hel | exact Hty].
Defined.

Lemma jobToMarkDown_lines_witness :
  DB2Number {| Number_toString := "1e+21" |} <> DB2Null /\
  jobToMarkDown (inl [("ELAPSED_CPU", DB2Number {| Number_toString := "1e+21" |});
                      ("SUBSYSTEM", DB2Null);
                      ("JOB_NAME", DB2String "QDBGSRV")]) =
  "- ELAPSED_CPU: 1e+21" ++ nl ++ "- JOB_NAME: QDBGSRV".
Proof.
  assert (Hv : DB2Number {| Number_toString := "1e+21" |} <> DB2Null) by discriminate.
  split; [exact Hv|].
  rewrite (proj1 (jobToMarkDown_lines (env := sample) "ELAPSED_CPU"
                    (DB2Number {| Number_toString := "1e+21" |})
                    [("SUBSYSTEM", DB2Null); ("JOB_NAME", DB2String "QDBGSRV")] Hv)).
  reflexivity.
Defined.

Lemma refresh_without_connection_witness :
  fst (fixedAnswers _ getConnection sampleOffline) = None /\
  value (run fixedAnswers (getChildren None) sampleOffline) = [].
Proof.
  split; [reflexivity|].
  exact (proj1 (refresh_without_connection (env := sample) fixedAnswers sampleOffline
                  eq_refl)).
Defined.

Lemma service_node_problem_witness :
  fst (fixedAnswers _ getConnection sampleRemote) = Some sampleHost /\
  exists serverNode serviceNode,
    value (run fixedAnswers getRootItems sampleRemote) = [serverNode; serviceNode] /\
    issueContext (problem serviceNode) = Some "noremote".
Proof.
  split; [reflexivity|].
  destruct (service_node_problem (env := sample) fixedAnswers sampleRemote sampleHost eq_refl)
    as [serverNode [serviceNode [Hitems Hpb]]].
  exists serverNode, serviceNode. split; [exact Hitems | exact Hpb].
Defined.

Lemma root_nodes_commands_witness :
  fst (fixedAnswers _ getConnection sampleRemote) = Some sampleHost /\
  exists serverNode serviceNode,
    value (run fixedAnswers getRootItems sampleRemote) = [serverNode; serviceNode] /\
    exists u b,
      trace (run fixedAnswers (command_job_start serviceNode) sampleRemoteLater) =
        [Observed (withProgress "start.debug.service.task") u;
         Observed (startService sampleHost) b].
Proof.
  split; [reflexivity|].
  destruct (root_nodes_commands (env := sample) fixedAnswers sampleRemote
              fixedAnswers sampleRemoteLater sampleHost eq_refl)
    as [serverNode [serviceNode [Hitems [_ [_ [[u [b [Htrace _]]] _]]]]]].
  exists serverNode, serviceNode. split; [exact Hitems|].
  exists u, b. exact Htrace.
Defined.
